(** * training.py: the training pipeline of the image-captioning model

    A shallow embedding of [src/training.py].  The script is straight-line
    orchestration over the deep-learning framework, the experiment tracker
    and the collaborator modules [dataset], [settings], [model] and
    [utility], so its behaviour is the sequence of calls it makes, with their
    arguments, and the exception it dies with, if any.  The embedding is an
    error monad that records that sequence; the environment of a run says
    which calls raise and what the others return. *)

From Stdlib Require Import ZArith Lia.
From stdpp Require Import base option list gmap strings.

Open Scope Z_scope.
Local Set Warnings "-register-all".

(** ** Values *)

Section Model.

(** Losses and accuracies are floating-point numbers that the script only
    forwards; their type is left open. *)
Context {scalar : Type}.

(** The Python values the script hands to [wandb.log] and [json.dump]. *)
Inductive pyval :=
| VNone
| VInt (z : Z)
| VFloat (x : scalar)
| VStr (s : string)
| VList (l : list pyval).

(** One argument of a [print] call: a string literal of the script, a value,
    or a literal format string applied with [%] to a tuple of values. *)
Inductive parg :=
| Lit (s : string)
| Val (v : pyval)
| Fmt (fmt : string) (args : list pyval).

(** A sample mapping as [json.load] returns it: image path to captions, in
    document order. *)
Definition samples : Type := list (string * list string).

Definition keys (d : samples) : list string := d.*1.
Definition values (d : samples) : list (list string) := d.*2.
Definition len {A} (l : list A) : Z := Z.of_nat (length l).

(** ** [settings.py] and [dataset.py]

    Neither module is among the sources; the script reads these names from
    them. *)
Record Settings := {
  train_data_json_path : string;
  valid_data_json_path : string;
  text_data_json_path : string;
  REDUCE_DATASET : bool;
  IMAGE_SIZE : Z * Z;
  MAX_VOCAB_SIZE : Z;
  SEQ_LENGTH : Z;
  EMBED_DIM : Z;
  NUM_HEADS : Z;
  FF_DIM : Z;
  BATCH_SIZE : Z;
  EPOCHS : Z;
  TRAIN_SET_AUG : bool;
  VALID_SET_AUG : bool;
  TEST_SET : bool;
  SAVE_DIR : string
}.

Record DatasetModule := {
  custom_standardization : string -> string;
  reduce_dataset_dim : samples -> samples -> samples * samples;
  valid_test_split : samples -> samples * samples
}.

(** ** The tokenizer

    [TextVectorization] is the framework's class; the record holds the
    arguments of lines 85-91 and, as [learned], the state [adapt] sets: the
    tokens after the two reserved ones. *)
Record TextVectorization := {
  max_tokens : Z;
  output_mode : string;
  output_sequence_length : Z;
  standardize : string -> string;
  ngrams : Z;
  learned : list string
}.

Definition mask_token : string := "".
Definition oov_token : string := "[UNK]".
Definition reserved_tokens : list string := [mask_token; oov_token].

Definition is_reserved (t : string) : bool :=
  bool_decide (t ∈ reserved_tokens).

(** The corpus as the layer sees it: every text standardized, then split on
    white space. *)
Definition corpus_tokens (std : string -> string) (corpus : list string)
  : list string :=
  concat (map (fun text => String.words (std text)) corpus).

Definition count_token (t : string) (toks : list string) : nat :=
  length (filter (fun u => u = t) toks).

Definition token_counts (toks : list string) : list (string * nat) :=
  map (fun t => (t, count_token t toks)) (remove_dups toks).

(** Most frequent first; equal counts are ordered by the token, largest
    first. *)
Definition ranks_before (a b : string * nat) : bool :=
  match Nat.compare a.2 b.2 with
  | Gt => true
  | Lt => false
  | Eq => match String.compare a.1 b.1 with Lt => false | _ => true end
  end.

Fixpoint rank_insert (a : string * nat) (l : list (string * nat))
  : list (string * nat) :=
  match l with
  | [] => [a]
  | b :: l' => if ranks_before a b then a :: l else b :: rank_insert a l'
  end.

Definition rank (l : list (string * nat)) : list (string * nat) :=
  foldr rank_insert [] l.

(** The distinct tokens of the corpus; a token spelled like a reserved one
    is not counted a second time. *)
Definition unique_tokens (std : string -> string) (corpus : list string)
  : list string :=
  filter (fun t => is_reserved t = false) (remove_dups (corpus_tokens std corpus)).

(** Modelled from the spec: [TextVectorization.adapt] and [get_vocabulary]
    are the framework's and not among the sources.  The spec has the
    tokenizer's state as a learned vocabulary, an ordered list of tokens of
    at most the configured maximum size, determined in a single pass over
    the text corpus with the standardization function and unigram
    tokenization of lines 85-91, and counts it as the unique tokens of the
    standardized corpus plus the reserved tokens.  So [adapt] keeps the
    distinct tokens of the standardized corpus, as many as [max_tokens]
    leaves room for after the reserved tokens; a token of the corpus
    spelled like a reserved one is no token of its own.  The two reserved
    tokens of the "int" output mode (padding and out-of-vocabulary) and
    the order of the others, most frequent first, are the framework's;
    only the length of the vocabulary is read by the script. *)
Definition adapt (t : TextVectorization) (corpus : list string)
  : TextVectorization :=
  let counted :=
    filter (fun tc => is_reserved tc.1 = false)
           (token_counts (corpus_tokens (standardize t) corpus)) in
  {| max_tokens := max_tokens t;
     output_mode := output_mode t;
     output_sequence_length := output_sequence_length t;
     standardize := standardize t;
     ngrams := ngrams t;
     learned := take (Z.to_nat (max_tokens t - len reserved_tokens))
                     (rank counted).*1 |}.

(** Modelled from the spec: the vocabulary is the ordered list of the
    reserved tokens and the learned ones, and its size never exceeds the
    configured maximum; so it is cut at [max_tokens], also where that is
    less than the two reserved tokens.  (No size is within a maximum below
    zero; the list is empty there.) *)
Definition get_vocabulary (t : TextVectorization) : list string :=
  take (Z.to_nat (max_tokens t)) (reserved_tokens ++ learned t).

(** ** Framework objects, by the arguments they are built from *)

Record Dataset := {
  ds_images : list string;
  ds_captions : list (list string);
  ds_data_aug : bool;
  ds_tokenizer : TextVectorization
}.

Definition make_dataset (images : list string) (captions : list (list string))
    (data_aug : bool) (tokenizer : TextVectorization) : Dataset :=
  {| ds_images := images; ds_captions := captions;
     ds_data_aug := data_aug; ds_tokenizer := tokenizer |}.

Record TransformerEncoderBlock := {
  enc_embed_dim : Z; enc_dense_dim : Z; enc_num_heads : Z
}.

Record TransformerDecoderBlock := {
  dec_embed_dim : Z; dec_ff_dim : Z; dec_num_heads : Z; vocab_size : Z
}.

Inductive CNNModel := cnn_model.

Record ImageCaptioningModel := {
  m_cnn_model : CNNModel;
  m_encoder : TransformerEncoderBlock;
  m_encoder2 : TransformerEncoderBlock;
  m_decoder : TransformerDecoderBlock
}.

(** The two callbacks handed to [fit]: the framework's early stopping, by
    its arguments ([monitor] is left at the framework's default), and the
    module-level [wandb_callback] of lines 39-50. *)
Inductive callback :=
| EarlyStopping (monitor : string) (patience : Z) (restore_best_weights : bool)
| wandb_callback.

(** ** Calls and exceptions *)

Inductive exn :=
| FileNotFoundError (path : string)
| JSONDecodeError (path : string)
| AuthenticationError
| KeyError (key : string)
| IndexError
| FrameworkError (msg : string).

(** Every call the script makes across an interface, with its arguments. *)
Inductive call :=
| py_open (path mode : string)
| wandb_login (key : string)
| wandb_init (project entity : string)
| print (args : list parg)
| json_load (path : string)
| call_reduce_dataset_dim (train valid : samples)
| wandb_log (d : gmap string pyval)
| new_TextVectorization (t : TextVectorization)
| tokenizer_adapt (t : TextVectorization) (corpus : list string)
| tokenizer_get_vocabulary (t : TextVectorization)
| call_valid_test_split (valid : samples)
| call_make_dataset (ds : Dataset)
| get_cnn_model
| new_TransformerEncoderBlock (b : TransformerEncoderBlock)
| new_TransformerDecoderBlock (b : TransformerDecoderBlock)
| new_ImageCaptioningModel (m : ImageCaptioningModel)
| new_SparseCategoricalCrossentropy (from_logits : bool) (reduction : string)
| new_EarlyStopping (cb : callback)
| custom_schedule (embed_dim : Z)
| new_Adam
| model_compile (m : ImageCaptioningModel) (metrics : list string)
| model_fit (m : ImageCaptioningModel) (train : Dataset) (epochs : Z)
    (validation_data : Dataset) (callbacks : list callback)
| model_evaluate (m : ImageCaptioningModel) (ds : Dataset) (batch_size : Z)
| json_dump (obj : gmap string pyval) (path : string)
| model_save_weights (m : ImageCaptioningModel) (path : string)
| run_save (path : string)
| save_tokenizer (t : TextVectorization) (dir : string)
| run_finish.

Inductive outcome :=
| Returned
| Raised (e : exn).

Definition entry : Type := call * outcome.

(** ** The environment of one run *)

(** What the framework's training loop does in a run: per epoch, the [logs]
    it hands to the callbacks at the end of each batch and at the end of
    the epoch. *)
Record epoch_run := {
  batch_logs : list (gmap string scalar);
  epoch_logs : gmap string scalar
}.

Record World := {
  (** whether the call made as the [n]-th of the process raises, and what:
      the same call may return once and raise another time *)
  raises : nat -> call -> option exn;
  file_text : string -> string;
  json_samples : string -> samples;
  json_corpus : string -> list string;
  tf_version : string;
  gpus : list string;
  fit_epochs : list epoch_run;
  fit_history : gmap string pyval;
  evaluate_result : Dataset -> list scalar
}.

(** ** The script monad

    A piece of the script, started when the process has made [n] calls
    already: the calls it makes, each with its outcome, and the value it
    returns or the exception that ends it. *)

Definition M (A : Type) : Type := nat -> list entry * (exn + A).

Definition ret {A} (a : A) : M A := fun _ => ([], inr a).

Definition raise {A} (e : exn) : M A := fun _ => ([], inl e).

Definition bind {A B} (m : M A) (k : A -> M B) : M B :=
  fun n =>
    match m n with
    | (t, inl e) => (t, inl e)
    | (t, inr a) => let '(t', r) := k a (n + length t)%nat in (t ++ t', r)
    end.

Notation "x <- m ;; k" := (bind m (fun x => k))
  (at level 100, m at next level, right associativity).
Notation "m ;;; k" := (bind m (fun _ => k))
  (at level 100, right associativity).

(** ** Python helpers *)

(** [s.strip()].  A character here is a code point below 256; of these
    [str.strip] takes for white space the six of ASCII (9 to 13 and 32),
    the separators 28 to 31, the next-line character 133 and the no-break
    space 160. *)
Definition is_whitespace (a : Ascii.ascii) : bool :=
  Ascii.is_space a ||
  bool_decide (Ascii.nat_of_ascii a ∈ ([28; 29; 30; 31; 133; 160] : list nat))%nat.

Fixpoint lstrip (s : string) : string :=
  match s with
  | String a s' => if is_whitespace a then lstrip s' else s
  | EmptyString => s
  end.

Definition strip (s : string) : string :=
  String.rev (lstrip (String.rev (lstrip s))).

(** [logs[k]] *)
Definition getitem (logs : gmap string scalar) (k : string) : M scalar :=
  match logs !! k with
  | Some v => ret v
  | None => raise (KeyError k)
  end.

(** [logs.get(k, None)] *)
Definition dict_get (logs : gmap string scalar) (k : string) : pyval :=
  match logs !! k with
  | Some v => VFloat v
  | None => VNone
  end.

(** [metrics[i]] *)
Definition index (metrics : list scalar) (i : nat) : M scalar :=
  match metrics !! i with
  | Some v => ret v
  | None => raise IndexError
  end.

Fixpoint for_each {A} (body : nat -> A -> M unit) (i : nat) (l : list A)
  : M unit :=
  match l with
  | [] => ret tt
  | x :: l' => body i x ;;; for_each body (S i) l'
  end.

(** Whether [needle] occurs in [s]. *)
Fixpoint occurs_in (needle s : string) : bool :=
  String.prefix needle s ||
  match s with
  | String _ s' => occurs_in needle s'
  | EmptyString => false
  end.

Section Script.

Variable st : Settings.
Variable dm : DatasetModule.
Variable w : World.

(** A call across an interface: it is recorded, and raises if the
    environment says so. *)
Definition ext (c : call) : M unit :=
  fun n =>
    match raises w n c with
    | Some e => ([(c, Raised e)], inl e)
    | None => ([(c, Returned)], inr tt)
    end.

(** ** Lines 39-50: the logging callback *)

Definition wandb_on_batch_end (batch : nat) (logs : gmap string scalar)
  : M unit :=
  loss <- getitem logs "loss" ;;
  acc <- getitem logs "acc" ;;
  ext (wandb_log {[ "batch_train_loss" := VFloat loss;
                    "batch_train_accuracy" := VFloat acc ]}).

Definition wandb_on_epoch_end (epoch : nat) (logs : gmap string scalar)
  : M unit :=
  loss <- getitem logs "loss" ;;
  ext (wandb_log {[ "epoch_train_loss" := VFloat loss;
                    "epoch_valid_loss" := dict_get logs "val_loss";
                    "epoch_valid_accuracy" := dict_get logs "val_acc" ]}).

(** ** The framework's training loop, as far as the script sees it

    [fit] runs the hooks of its callbacks, in list order, at the end of
    every batch and of every epoch.  Early stopping is the framework's own
    and makes no call of the script; it shows in the number of epochs of
    [fit_epochs]. *)
Definition on_batch_end (cb : callback) (batch : nat)
    (logs : gmap string scalar) : M unit :=
  match cb with
  | EarlyStopping _ _ _ => ret tt
  | wandb_callback => wandb_on_batch_end batch logs
  end.

Definition on_epoch_end (cb : callback) (epoch : nat)
    (logs : gmap string scalar) : M unit :=
  match cb with
  | EarlyStopping _ _ _ => ret tt
  | wandb_callback => wandb_on_epoch_end epoch logs
  end.

Definition run_epoch (cbs : list callback) (epoch : nat) (r : epoch_run)
  : M unit :=
  for_each (fun batch logs =>
              for_each (fun _ cb => on_batch_end cb batch logs) 0%nat cbs)
           0%nat (batch_logs r) ;;;
  for_each (fun _ cb => on_epoch_end cb epoch (epoch_logs r)) 0%nat cbs.

Definition fit (m : ImageCaptioningModel) (train : Dataset) (epochs : Z)
    (validation_data : Dataset) (cbs : list callback) : M unit :=
  ext (model_fit m train epochs validation_data cbs) ;;;
  for_each (run_epoch cbs) 0%nat (take (Z.to_nat epochs) (fit_epochs w)).

(** ** Lines 54-197: the module-level names

    Every assignment of the script is a definition here, named after its
    target; a name that the script assigns again gets a suffix for its
    earlier value. *)

(* 55 *)
Definition api_key : string := strip (file_text w "apikey.txt").
(* 69, 71, 73 *)
Definition train_data_json : samples := json_samples w (train_data_json_path st).
Definition valid_data_json : samples := json_samples w (valid_data_json_path st).
Definition text_data : list string := json_corpus w (text_data_json_path st).
(* 76-77 *)
Definition train_data : samples :=
  if REDUCE_DATASET st
  then (reduce_dataset_dim dm train_data_json valid_data_json).1
  else train_data_json.
Definition valid_data_unsplit : samples :=
  if REDUCE_DATASET st
  then (reduce_dataset_dim dm train_data_json valid_data_json).2
  else valid_data_json.
(* 85-91 *)
Definition tokenizer_unfitted : TextVectorization :=
  {| max_tokens := MAX_VOCAB_SIZE st;
     output_mode := "int";
     output_sequence_length := SEQ_LENGTH st;
     standardize := custom_standardization dm;
     ngrams := 1;
     learned := [] |}.
(* 94 *)
Definition tokenizer : TextVectorization := adapt tokenizer_unfitted text_data.
(* 97 *)
Definition VOCAB_SIZE : Z := len (get_vocabulary tokenizer).
(* 101 *)
Definition valid_data : samples := (valid_test_split dm valid_data_unsplit).1.
Definition test_data : samples := (valid_test_split dm valid_data_unsplit).2.
(* 106-109 *)
Definition train_dataset : Dataset :=
  make_dataset (keys train_data) (values train_data) (TRAIN_SET_AUG st) tokenizer.
Definition valid_dataset : Dataset :=
  make_dataset (keys valid_data) (values valid_data) (VALID_SET_AUG st) tokenizer.
Definition test_dataset : Dataset :=
  make_dataset (keys test_data) (values test_data) false tokenizer.
(* 114-125 *)
Definition encoder : TransformerEncoderBlock :=
  {| enc_embed_dim := EMBED_DIM st; enc_dense_dim := FF_DIM st;
     enc_num_heads := NUM_HEADS st |}.
Definition encoder2 : TransformerEncoderBlock :=
  {| enc_embed_dim := EMBED_DIM st; enc_dense_dim := FF_DIM st;
     enc_num_heads := NUM_HEADS st |}.
Definition decoder : TransformerDecoderBlock :=
  {| dec_embed_dim := EMBED_DIM st; dec_ff_dim := FF_DIM st;
     dec_num_heads := NUM_HEADS st; vocab_size := VOCAB_SIZE |}.
Definition caption_model : ImageCaptioningModel :=
  {| m_cnn_model := cnn_model; m_encoder := encoder; m_encoder2 := encoder2;
     m_decoder := decoder |}.
(* 131 *)
Definition early_stopping : callback := EarlyStopping "val_loss" 3 true.
(* 148-149, 156 *)
Definition train_metrics : list scalar := evaluate_result w train_dataset.
Definition valid_metrics : list scalar := evaluate_result w valid_dataset.
Definition test_metrics : list scalar := evaluate_result w test_dataset.
(* 166 *)
Definition history_dict : gmap string pyval := fit_history w.
(* 182-190 *)
Definition config_train : gmap string pyval :=
  {[ "IMAGE_SIZE" := VList [VInt (IMAGE_SIZE st).1; VInt (IMAGE_SIZE st).2];
     "MAX_VOCAB_SIZE" := VInt (MAX_VOCAB_SIZE st);
     "SEQ_LENGTH" := VInt (SEQ_LENGTH st);
     "EMBED_DIM" := VInt (EMBED_DIM st);
     "NUM_HEADS" := VInt (NUM_HEADS st);
     "FF_DIM" := VInt (FF_DIM st);
     "BATCH_SIZE" := VInt (BATCH_SIZE st);
     "EPOCHS" := VInt (EPOCHS st);
     "VOCAB_SIZE" := VInt VOCAB_SIZE ]}.

Definition weights_file : string := "big_model_weights_coco.weights.h5".

(** ** Lines 54-197: the statements, in order *)

Definition training : M unit :=
  (* 54-61 *)
  ext (py_open "apikey.txt" "r") ;;;
  ext (wandb_login api_key) ;;;
  ext (wandb_init "image-labeling-project" "dulcich") ;;;
  (* 64-65 *)
  ext (print [Lit "tensorflow version: "; Val (VStr (tf_version w))]) ;;;
  ext (print [Lit "Num GPUs Available: "; Val (VInt (len (gpus w)))]) ;;;
  (* 68-73 *)
  ext (py_open (train_data_json_path st) "r") ;;;
  ext (json_load (train_data_json_path st)) ;;;
  ext (py_open (valid_data_json_path st) "r") ;;;
  ext (json_load (valid_data_json_path st)) ;;;
  ext (py_open (text_data_json_path st) "r") ;;;
  ext (json_load (text_data_json_path st)) ;;;
  (* 76-82 *)
  (if REDUCE_DATASET st
   then ext (call_reduce_dataset_dim train_data_json valid_data_json)
   else ret tt) ;;;
  ext (print [Lit "Number of training samples: ";
              Val (VInt (len train_data))]) ;;;
  ext (print [Lit "Number of validation samples: ";
              Val (VInt (len valid_data_unsplit))]) ;;;
  ext (wandb_log
         {[ "Number of training samples" := VInt (len train_data);
            "Number of validation samples" := VInt (len valid_data_unsplit) ]}) ;;;
  (* 85-97 *)
  ext (new_TextVectorization tokenizer_unfitted) ;;;
  ext (tokenizer_adapt tokenizer_unfitted text_data) ;;;
  ext (tokenizer_get_vocabulary tokenizer) ;;;
  (* 101-103 *)
  ext (call_valid_test_split valid_data_unsplit) ;;;
  ext (print [Lit "Number of validation samples after splitting with test set: ";
              Val (VInt (len valid_data))]) ;;;
  ext (print [Lit "Number of test samples: "; Val (VInt (len test_data))]) ;;;
  (* 106-109 *)
  ext (call_make_dataset train_dataset) ;;;
  ext (call_make_dataset valid_dataset) ;;;
  (if TEST_SET st then ext (call_make_dataset test_dataset) else ret tt) ;;;
  (* 112-125 *)
  ext get_cnn_model ;;;
  ext (new_TransformerEncoderBlock encoder) ;;;
  ext (new_TransformerEncoderBlock encoder2) ;;;
  ext (new_TransformerDecoderBlock decoder) ;;;
  ext (new_ImageCaptioningModel caption_model) ;;;
  (* 128-138 *)
  ext (new_SparseCategoricalCrossentropy true "none") ;;;
  ext (new_EarlyStopping early_stopping) ;;;
  ext (custom_schedule (EMBED_DIM st)) ;;;
  ext new_Adam ;;;
  ext (model_compile caption_model ["accuracy"]) ;;;
  (* 142-145 *)
  fit caption_model train_dataset (EPOCHS st) valid_dataset
      [early_stopping; wandb_callback] ;;;
  (* 148-151 *)
  ext (model_evaluate caption_model train_dataset (BATCH_SIZE st)) ;;;
  ext (model_evaluate caption_model valid_dataset (BATCH_SIZE st)) ;;;
  (tl <- index train_metrics 0 ;;
   ta <- index train_metrics 1 ;;
   vl <- index valid_metrics 0 ;;
   va <- index valid_metrics 1 ;;
   ext (wandb_log {[ "Train Loss" := VFloat tl; "Train Accuracy" := VFloat ta;
                     "Valid Loss" := VFloat vl; "Valid Accuracy" := VFloat va ]})) ;;;
  (* 155-157 *)
  (if TEST_SET st
   then ext (model_evaluate caption_model test_dataset (BATCH_SIZE st)) ;;;
        sl <- index test_metrics 0 ;;
        sa <- index test_metrics 1 ;;
        ext (wandb_log {[ "Test Loss" := VFloat sl;
                          "Test Accuracy" := VFloat sa ]})
   else ret tt) ;;;
  (* 160-163 *)
  (tl <- index train_metrics 0 ;;
   ta <- index train_metrics 1 ;;
   ext (print [Fmt "Train Loss = %.4f - Train Accuracy = %.4f"
                   [VFloat tl; VFloat ta]])) ;;;
  (vl <- index valid_metrics 0 ;;
   va <- index valid_metrics 1 ;;
   ext (print [Fmt "Valid Loss = %.4f - Valid Accuracy = %.4f"
                   [VFloat vl; VFloat va]])) ;;;
  (if TEST_SET st
   then sl <- index test_metrics 0 ;;
        sa <- index test_metrics 1 ;;
        ext (print [Fmt "Test Loss = %.4f - Test Accuracy = %.4f"
                        [VFloat sl; VFloat sa]])
   else ret tt) ;;;
  (* 166-167 *)
  ext (py_open (SAVE_DIR st +:+ "history.json") "w") ;;;
  ext (json_dump history_dict (SAVE_DIR st +:+ "history.json")) ;;;
  (* 178-179 *)
  ext (model_save_weights caption_model (SAVE_DIR st +:+ weights_file)) ;;;
  ext (run_save (SAVE_DIR st +:+ weights_file)) ;;;
  (* 182-192 *)
  ext (py_open (SAVE_DIR st +:+ "config_train.json") "w") ;;;
  ext (json_dump config_train (SAVE_DIR st +:+ "config_train.json")) ;;;
  (* 195-197 *)
  ext (save_tokenizer tokenizer (SAVE_DIR st)) ;;;
  ext run_finish.

(** The process runs the script from its first statement. *)
Definition execute : list entry * (exn + unit) := training 0%nat.

(** ** The calls of a run that reaches its end

    What the statements above amount to when nothing raises, phase by
    phase; [execute_completed] below proves it of [execute]. *)

Definition batch_report (loss acc : scalar) : call :=
  wandb_log {[ "batch_train_loss" := VFloat loss;
               "batch_train_accuracy" := VFloat acc ]}.

Definition epoch_report (loss : scalar) (val_loss val_acc : option scalar)
  : call :=
  wandb_log {[ "epoch_train_loss" := VFloat loss;
               "epoch_valid_loss" := from_option VFloat VNone val_loss;
               "epoch_valid_accuracy" := from_option VFloat VNone val_acc ]}.

Definition batch_call (logs : gmap string scalar) : option call :=
  loss ← logs !! "loss"; acc ← logs !! "acc"; Some (batch_report loss acc).

Definition epoch_call (logs : gmap string scalar) : option call :=
  loss ← logs !! "loss";
  Some (epoch_report loss (logs !! "val_loss") (logs !! "val_acc")).

Definition epoch_calls (r : epoch_run) : list call :=
  omap batch_call (batch_logs r) ++ option_list (epoch_call (epoch_logs r)).

Definition epochs_run : list epoch_run :=
  take (Z.to_nat (EPOCHS st)) (fit_epochs w).

Definition fit_calls : list call := epochs_run ≫= epoch_calls.

Definition summary_report (tl ta vl va : scalar) : call :=
  wandb_log {[ "Train Loss" := VFloat tl; "Train Accuracy" := VFloat ta;
               "Valid Loss" := VFloat vl; "Valid Accuracy" := VFloat va ]}.

Definition test_report (sl sa : scalar) : call :=
  wandb_log {[ "Test Loss" := VFloat sl; "Test Accuracy" := VFloat sa ]}.

Definition metrics_print (fmt : string) (loss acc : scalar) : call :=
  print [Fmt fmt [VFloat loss; VFloat acc]].

Definition calls_loading : list call :=
  [ py_open "apikey.txt" "r";
    wandb_login api_key;
    wandb_init "image-labeling-project" "dulcich";
    print [Lit "tensorflow version: "; Val (VStr (tf_version w))];
    print [Lit "Num GPUs Available: "; Val (VInt (len (gpus w)))];
    py_open (train_data_json_path st) "r";
    json_load (train_data_json_path st);
    py_open (valid_data_json_path st) "r";
    json_load (valid_data_json_path st);
    py_open (text_data_json_path st) "r";
    json_load (text_data_json_path st) ] ++
  (if REDUCE_DATASET st
   then [call_reduce_dataset_dim train_data_json valid_data_json] else []) ++
  [ print [Lit "Number of training samples: "; Val (VInt (len train_data))];
    print [Lit "Number of validation samples: ";
           Val (VInt (len valid_data_unsplit))];
    wandb_log
      {[ "Number of training samples" := VInt (len train_data);
         "Number of validation samples" := VInt (len valid_data_unsplit) ]} ].

Definition calls_tokenizer : list call :=
  [ new_TextVectorization tokenizer_unfitted;
    tokenizer_adapt tokenizer_unfitted text_data;
    tokenizer_get_vocabulary tokenizer ].

Definition calls_datasets : list call :=
  [ call_valid_test_split valid_data_unsplit;
    print [Lit "Number of validation samples after splitting with test set: ";
           Val (VInt (len valid_data))];
    print [Lit "Number of test samples: "; Val (VInt (len test_data))];
    call_make_dataset train_dataset;
    call_make_dataset valid_dataset ] ++
  (if TEST_SET st then [call_make_dataset test_dataset] else []).

Definition calls_model : list call :=
  [ get_cnn_model;
    new_TransformerEncoderBlock encoder;
    new_TransformerEncoderBlock encoder2;
    new_TransformerDecoderBlock decoder;
    new_ImageCaptioningModel caption_model;
    new_SparseCategoricalCrossentropy true "none";
    new_EarlyStopping early_stopping;
    custom_schedule (EMBED_DIM st);
    new_Adam;
    model_compile caption_model ["accuracy"] ].

Definition call_fit : call :=
  model_fit caption_model train_dataset (EPOCHS st) valid_dataset
            [early_stopping; wandb_callback].

Definition calls_training : list call := call_fit :: fit_calls.

Definition calls_evaluation (tl ta vl va : scalar) (test : option (scalar * scalar))
  : list call :=
  [ model_evaluate caption_model train_dataset (BATCH_SIZE st);
    model_evaluate caption_model valid_dataset (BATCH_SIZE st);
    summary_report tl ta vl va ] ++
  match test with
  | Some (sl, sa) =>
      [ model_evaluate caption_model test_dataset (BATCH_SIZE st);
        test_report sl sa ]
  | None => []
  end ++
  [ metrics_print "Train Loss = %.4f - Train Accuracy = %.4f" tl ta;
    metrics_print "Valid Loss = %.4f - Valid Accuracy = %.4f" vl va ] ++
  match test with
  | Some (sl, sa) =>
      [ metrics_print "Test Loss = %.4f - Test Accuracy = %.4f" sl sa ]
  | None => []
  end.

Definition calls_persistence : list call :=
  [ py_open (SAVE_DIR st +:+ "history.json") "w";
    json_dump history_dict (SAVE_DIR st +:+ "history.json");
    model_save_weights caption_model (SAVE_DIR st +:+ weights_file);
    run_save (SAVE_DIR st +:+ weights_file);
    py_open (SAVE_DIR st +:+ "config_train.json") "w";
    json_dump config_train (SAVE_DIR st +:+ "config_train.json");
    save_tokenizer tokenizer (SAVE_DIR st) ].

Definition script_calls (tl ta vl va : scalar) (test : option (scalar * scalar))
  : list call :=
  calls_loading ++ calls_tokenizer ++ calls_datasets ++ calls_model ++
  calls_training ++ calls_evaluation tl ta vl va test ++
  calls_persistence ++ [run_finish].

(** The numbers [script_calls] is about: what lines 150-163 read from the
    results of [evaluate]; the test set's only when [TEST_SET] is on. *)
Definition metrics_read (tl ta vl va : scalar) (test : option (scalar * scalar))
  : Prop :=
  train_metrics !! 0%nat = Some tl /\ train_metrics !! 1%nat = Some ta /\
  valid_metrics !! 0%nat = Some vl /\ valid_metrics !! 1%nat = Some va /\
  if TEST_SET st
  then exists sl sa, test = Some (sl, sa) /\
         test_metrics !! 0%nat = Some sl /\ test_metrics !! 1%nat = Some sa
  else test = None.

End Script.

End Model.

(** ** What a trace says *)

Section Observations.
Context {scalar : Type}.
Implicit Types (c : @call scalar).

Definition returned (c : @call scalar) : @entry scalar := (c, Returned).

Definition is_adapt c : bool :=
  match c with tokenizer_adapt _ _ => true | _ => false end.

Definition is_make_dataset c : bool :=
  match c with call_make_dataset _ => true | _ => false end.

Definition is_decoder c : bool :=
  match c with new_TransformerDecoderBlock _ => true | _ => false end.

Definition is_split c : bool :=
  match c with call_valid_test_split _ => true | _ => false end.

(** [fit], and the construction of the early-stopping callback. *)
Definition is_fit_or_early_stopping c : bool :=
  match c with
  | model_fit _ _ _ _ _ | new_EarlyStopping _ => true
  | _ => false
  end.

Definition is_fit c : bool :=
  match c with model_fit _ _ _ _ _ => true | _ => false end.

Definition is_evaluate c : bool :=
  match c with model_evaluate _ _ _ => true | _ => false end.

(** The keys under which the metrics of the test set are reported. *)
Definition test_metric_keys : list string := ["Test Loss"; "Test Accuracy"].

Definition mentions (keys : list string) (a : @parg scalar) : bool :=
  match a with
  | Lit s | Fmt s _ => existsb (fun k => occurs_in k s) keys
  | Val _ => false
  end.

(** A [wandb.log] call with one of [keys] among its keys, or a [print] call
    with one of them in its text. *)
Definition reports (keys : list string) c : bool :=
  match c with
  | wandb_log d => existsb (fun k => bool_decide (is_Some (d !! k))) keys
  | print args => existsb (mentions keys) args
  | _ => false
  end.

(** A call that writes an artifact. *)
Definition is_persistence c : bool :=
  match c with
  | py_open _ mode => bool_decide (mode = "w")
  | json_dump _ _ | model_save_weights _ _ | run_save _ | save_tokenizer _ _ => true
  | _ => false
  end.

(** The reports of the sample counts of lines 78-82. *)
Definition count_labels : list string :=
  ["Number of training samples"; "Number of validation samples"].

Definition is_count_report c : bool :=
  match c with
  | wandb_log d => existsb (fun k => bool_decide (is_Some (d !! k))) count_labels
  | print (Lit s :: _) =>
      existsb (fun k => bool_decide (s = k +:+ ": ")) count_labels
  | _ => false
  end.

(** The keys the logging callback reports under. *)
Definition callback_keys : list string :=
  ["batch_train_loss"; "batch_train_accuracy"; "epoch_train_loss";
   "epoch_valid_loss"; "epoch_valid_accuracy"].

Definition is_json_dump c : bool :=
  match c with json_dump _ _ => true | _ => false end.

(** The split of the validation set, and the construction of a dataset. *)
Definition is_split_or_make_dataset c : bool :=
  match c with
  | call_valid_test_split _ | call_make_dataset _ => true
  | _ => false
  end.

(** [d] carries the number [x] under some key. *)
Definition forwards (d : gmap string (@pyval scalar)) (x : scalar) : Prop :=
  exists k, d !! k = Some (VFloat x).

(** Every batch and the epoch itself carry the keys the callback indexes. *)
Definition epoch_complete (r : @epoch_run scalar) : Prop :=
  Forall (fun logs => is_Some (batch_call logs)) (batch_logs r) /\
  is_Some (epoch_call (epoch_logs r)).

(** The calls of [cs] that [f] picks, in order. *)
Definition select (f : @call scalar -> bool) (cs : list (@call scalar))
  : list (@call scalar) :=
  List.filter f cs.

(** [P] holds of every call a computation makes, returned or not. *)
Definition always (P : @call scalar -> Prop) {A} (m : @M scalar A) : Prop :=
  forall n, Forall (fun e => P e.1) (m n).1.

(** Every call of [t], made from the [n]-th on, returned, as the
    environment [w] has it. *)
Definition all_returned (w : @World scalar) (n : nat) (t : list (@entry scalar))
  : Prop :=
  forall i c o, t !! i = Some (c, o) ->
                o = Returned /\ raises w (n + i)%nat c = None.

(** The outcome of a piece of script that catches nothing: either all its
    calls returned, or the one that raised is the last, and its exception
    is the result. *)
Inductive uncaught (w : @World scalar) (n : nat) {A}
  : list (@entry scalar) * (exn + A) -> Prop :=
| uncaught_returned t r :
    all_returned w n t -> uncaught w n (t, r)
| uncaught_raised t c e :
    all_returned w n t -> raises w (n + length t)%nat c = Some e ->
    uncaught w n (t ++ [(c, Raised e)], inl e).

(** A piece of script that catches nothing, whenever it is started. *)
Definition catches_nothing (w : @World scalar) {A} (m : @M scalar A) : Prop :=
  forall n, uncaught w n (m n).

(** A piece of script that returns [a], whenever it is started. *)
Definition returns {A} (m : @M scalar A) (a : A) : Prop :=
  forall n, (m n).2 = inr a.

(** Python's [try: m except: handler], which the script never uses: what
    [catches_nothing] rules out. *)
Definition try_except {A} (m : @M scalar A) (handler : exn -> @M scalar A)
  : @M scalar A :=
  fun n =>
    match m n with
    | (t, inl e) => let '(t', r) := handler e (n + length t)%nat in (t ++ t', r)
    | (t, inr a) => (t, inr a)
    end.

(** The artifacts a trace leaves on disk: the paths of the writes that
    returned. *)
Definition artifacts (t : list (@entry scalar)) : list string :=
  omap (fun e => match e with
                 | (json_dump _ path, Returned)
                 | (model_save_weights _ path, Returned)
                 | (save_tokenizer _ path, Returned) => Some path
                 | _ => None
                 end) t.

(** The directory [dir] is spelled with its separator at the end. *)
Definition ends_with_separator (dir : string) : bool :=
  match String.rev dir with
  | String a _ => bool_decide (String a EmptyString = "/")
  | EmptyString => false
  end.

(** [path] names a file inside the directory [dir]: it goes on from [dir]
    and its separator. *)
Definition inside (dir path : string) : bool :=
  String.prefix (if ends_with_separator dir then dir else dir +:+ "/") path.

(** *** What every run shows, complete or not *)

(** The steps of the pipeline: every call but the reports to the console
    and to the tracker. *)
Definition is_step c : bool :=
  match c with print _ | wandb_log _ => false | _ => true end.



Definition is_finish c : bool :=
  match c with run_finish => true | _ => false end.

(** What the script does once [fit] has returned: evaluation, the writes,
    the end of the tracker's run. *)
Definition after_training c : bool :=
  is_evaluate c || is_persistence c || is_finish c.

(** The call of an entry, if [p] picks it. *)
Definition calls_of (p : @call scalar -> bool) (e : @entry scalar)
  : option (@call scalar) :=
  if p e.1 then Some e.1 else None.

(** The path an entry wrote: a write that returned. *)
Definition written (e : @entry scalar) : option string :=
  match e with
  | (json_dump _ path, Returned)
  | (model_save_weights _ path, Returned)
  | (save_tokenizer _ path, Returned) => Some path
  | _ => None
  end.

(** A write that returned, or the call that ends the tracker's run. *)
Definition written_or_finished (e : @entry scalar) : option (option string) :=
  if is_finish e.1 then Some None else Some <$> written e.

(** Under the projection [f], a piece of script shows an initial segment
    of [l], whenever it is started and however it ends, and all of [l]
    when it returns. *)
Definition emits {X A} (f : @entry scalar -> option X) (m : @M scalar A)
    (l : list X) : Prop :=
  forall n, omap f (m n).1 `prefix_of` l /\
            forall a, (m n).2 = inr a -> omap f (m n).1 = l.

(** What lines 148-163 do with the trained model, call by call: the
    evaluation on a dataset, the report of the summary or of the test
    metrics to the tracker (told apart by their keys), a line of metrics
    on the console (by its format). *)
Inductive evaluation_step : Type :=
| Evaluates (ds : Dataset)
| LogsSummary
| LogsTest
| Prints (fmt : string).

Definition evaluation_step_of (e : @entry scalar) : option evaluation_step :=
  match e.1 with
  | model_evaluate _ ds _ => Some (Evaluates ds)
  | wandb_log d =>
      if bool_decide (is_Some (d !! "Train Loss")) then Some LogsSummary
      else if bool_decide (is_Some (d !! "Test Loss")) then Some LogsTest
      else None
  | print [Fmt fmt _] => Some (Prints fmt)
  | _ => None
  end.

(** [G] holds whenever a piece of script makes a call that [late] picks. *)
Definition only_when (late : @call scalar -> bool) (G : Prop) {A}
    (m : @M scalar A) : Prop :=
  forall n c, c ∈ (m n).1.*1 -> late c = true -> G.

(** A call that [last] picks ends the piece of script that makes it. *)
Definition ends_at (last : @call scalar -> bool) {A} (m : @M scalar A) : Prop :=
  forall n i c o, (m n).1 !! i = Some (c, o) -> last c = true ->
                  length (m n).1 = S i.

End Observations.

(** ** What the script is to do *)

Section Expectations.
Context {scalar : Type}.
Variable st : Settings.
Variable dm : DatasetModule.
Variable w : @World scalar.

(** The steps of lines 54-197, in order. *)
Definition pipeline : list (@call scalar) :=
  [ py_open "apikey.txt" "r";
    wandb_login (api_key w);
    wandb_init "image-labeling-project" "dulcich";
    py_open (train_data_json_path st) "r";
    json_load (train_data_json_path st);
    py_open (valid_data_json_path st) "r";
    json_load (valid_data_json_path st);
    py_open (text_data_json_path st) "r";
    json_load (text_data_json_path st) ] ++
  (if REDUCE_DATASET st
   then [call_reduce_dataset_dim (train_data_json st w) (valid_data_json st w)]
   else []) ++
  [ new_TextVectorization (tokenizer_unfitted st dm);
    tokenizer_adapt (tokenizer_unfitted st dm) (text_data st w);
    tokenizer_get_vocabulary (tokenizer st dm w);
    call_valid_test_split (valid_data_unsplit st dm w);
    call_make_dataset (train_dataset st dm w);
    call_make_dataset (valid_dataset st dm w) ] ++
  (if TEST_SET st then [call_make_dataset (test_dataset st dm w)] else []) ++
  [ get_cnn_model;
    new_TransformerEncoderBlock (encoder st);
    new_TransformerEncoderBlock (encoder2 st);
    new_TransformerDecoderBlock (decoder st dm w);
    new_ImageCaptioningModel (caption_model st dm w);
    new_SparseCategoricalCrossentropy true "none";
    new_EarlyStopping early_stopping;
    custom_schedule (EMBED_DIM st);
    new_Adam;
    model_compile (caption_model st dm w) ["accuracy"];
    model_fit (caption_model st dm w) (train_dataset st dm w) (EPOCHS st)
              (valid_dataset st dm w) [early_stopping; wandb_callback];
    model_evaluate (caption_model st dm w) (train_dataset st dm w) (BATCH_SIZE st);
    model_evaluate (caption_model st dm w) (valid_dataset st dm w) (BATCH_SIZE st) ] ++
  (if TEST_SET st
   then [model_evaluate (caption_model st dm w) (test_dataset st dm w)
                        (BATCH_SIZE st)]
   else []) ++
  [ py_open (SAVE_DIR st +:+ "history.json") "w";
    json_dump (history_dict w) (SAVE_DIR st +:+ "history.json");
    model_save_weights (caption_model st dm w) (SAVE_DIR st +:+ weights_file);
    run_save (SAVE_DIR st +:+ weights_file);
    py_open (SAVE_DIR st +:+ "config_train.json") "w";
    json_dump (config_train st dm w) (SAVE_DIR st +:+ "config_train.json");
    save_tokenizer (tokenizer st dm w) (SAVE_DIR st);
    run_finish ].

(** What lines 165-195 write, in order: the history, the weights, the
    configuration, and the tokenizer under the directory itself. *)
Definition saved : list string :=
  [ SAVE_DIR st +:+ "history.json";
    SAVE_DIR st +:+ weights_file;
    SAVE_DIR st +:+ "config_train.json";
    SAVE_DIR st ].

End Expectations.

(** ** A small run: the two-image corpus, integers for the metrics *)

Module Demo.

Definition settings (reduce test : bool) (max_vocab : Z) : Settings :=
  {| train_data_json_path := "train.json";
     valid_data_json_path := "valid.json";
     text_data_json_path := "text.json";
     REDUCE_DATASET := reduce;
     IMAGE_SIZE := (299, 299);
     MAX_VOCAB_SIZE := max_vocab;
     SEQ_LENGTH := 25;
     EMBED_DIM := 512;
     NUM_HEADS := 6;
     FF_DIM := 1024;
     BATCH_SIZE := 64;
     EPOCHS := 10;
     TRAIN_SET_AUG := true;
     VALID_SET_AUG := false;
     TEST_SET := test;
     SAVE_DIR := "save_train_dir/" |}.

Definition dataset_module : DatasetModule :=
  {| custom_standardization := fun s => s;
     reduce_dataset_dim := fun train valid => (take 1 train, take 1 valid);
     valid_test_split := fun valid => (take 1 valid, drop 1 valid) |}.

Definition images : samples :=
  [("img1.jpg", ["a cat"]); ("img2.jpg", ["a dog"])].

Definition logs4 : gmap string Z :=
  {[ "loss" := 1; "acc" := 2; "val_loss" := 3; "val_acc" := 4 ]}.

Definition world (raising : nat -> @call Z -> option exn) (metrics : list Z)
  : @World Z :=
  {| raises := raising;
     file_text := fun _ => " secret ";
     json_samples := fun _ => images;
     json_corpus := fun _ => ["a cat"; "a dog"];
     tf_version := "2.15.0";
     gpus := [];
     fit_epochs := [ {| batch_logs := [ {[ "loss" := 9; "acc" := 1 ]};
                                        {[ "loss" := 5; "acc" := 2 ]} ];
                        epoch_logs := logs4 |} ];
     fit_history := {[ "loss" := VList [VFloat 1];
                       "val_loss" := VList [VFloat 3] ]};
     evaluate_result := fun _ => metrics |}.

Definition nothing_raises : nat -> @call Z -> option exn := fun _ _ => None.

Definition disk_full : nat -> @call Z -> option exn :=
  fun _ c => match c with
             | model_save_weights _ _ => Some (FrameworkError "disk full")
             | _ => None
             end.

(** A world where the evaluation of the held-out image gives 7 and 8, and
    that of any other dataset 1 and 2. *)
Definition graded : @World Z :=
  {| raises := nothing_raises;
     file_text := fun _ => " secret ";
     json_samples := fun _ => images;
     json_corpus := fun _ => ["a cat"; "a dog"];
     tf_version := "2.15.0";
     gpus := [];
     fit_epochs := [ {| batch_logs := [ {[ "loss" := 9; "acc" := 1 ]};
                                        {[ "loss" := 5; "acc" := 2 ]} ];
                        epoch_logs := logs4 |} ];
     fit_history := ∅;
     evaluate_result := fun ds =>
       if bool_decide (ds_images ds = ["img2.jpg"]) then [7; 8] else [1; 2] |}.

(** The settings of the script with another save directory. *)
Definition settings_in (dir : string) : Settings :=
  {| train_data_json_path := "train.json";
     valid_data_json_path := "valid.json";
     text_data_json_path := "text.json";
     REDUCE_DATASET := false;
     IMAGE_SIZE := (299, 299);
     MAX_VOCAB_SIZE := 100;
     SEQ_LENGTH := 25;
     EMBED_DIM := 512;
     NUM_HEADS := 6;
     FF_DIM := 1024;
     BATCH_SIZE := 64;
     EPOCHS := 10;
     TRAIN_SET_AUG := true;
     VALID_SET_AUG := false;
     TEST_SET := true;
     SAVE_DIR := dir |}.

(** The same run with a second batch that lacks its accuracy. *)
Definition no_accuracy : @World Z :=
  {| raises := nothing_raises;
     file_text := fun _ => " secret ";
     json_samples := fun _ => images;
     json_corpus := fun _ => ["a cat"; "a dog"];
     tf_version := "2.15.0";
     gpus := [];
     fit_epochs := [ {| batch_logs := [ {[ "loss" := 9; "acc" := 1 ]};
                                        {[ "loss" := 5 ]} ];
                        epoch_logs := logs4 |} ];
     fit_history := ∅;
     evaluate_result := fun _ => [7; 8] |}.

End Demo.

(** * Properties *)

Section Theory.
Context {scalar : Type}.
Local Abbreviation M := (@M scalar).
Implicit Types (st : Settings) (dm : DatasetModule) (w : @World scalar).
Implicit Types (c : @call scalar) (t : list (@entry scalar)) (n : nat).
Implicit Types (logs : gmap string scalar).

(** *** The monad *)

Lemma bind_assoc {A B C} (m : M A) (f : A -> M B) (g : B -> M C) n :
  bind (bind m f) g n = bind m (fun x => bind (f x) g) n.
Proof.
  unfold bind. destruct (m n) as [t [e|a]]; [done|].
  destruct (f a (n + length t)%nat) as [t1 [e|b]]; [done|].
  rewrite length_app, Nat.add_assoc.
  destruct (g b _) as [t2 r]. by rewrite (assoc_L (++)).
Qed.

Lemma bind_ret_l {A B} (a : A) (k : A -> M B) n : bind (ret a) k n = k a n.
Proof. unfold bind, ret. simpl. rewrite Nat.add_0_r. by destruct (k a n). Qed.

Lemma bind_ret_r (m : M unit) n : bind m (fun _ => ret tt) n = m n.
Proof.
  unfold bind, ret. destruct (m n) as [t [e|[]]]; [done|].
  by rewrite (right_id_L [] (++)).
Qed.

Lemma bind_inr {A B} (m : M A) (k : A -> M B) n t b :
  bind m k n = (t, inr b) ->
  exists t1 a t2,
    m n = (t1, inr a) /\ k a (n + length t1)%nat = (t2, inr b) /\ t = t1 ++ t2.
Proof.
  unfold bind. destruct (m n) as [t1 [e|a]]; [done|].
  destruct (k a _) as [t2 r] eqn:Hk. intros [= <- ->]. eauto 6.
Qed.

Lemma ext_inr w c n t :
  ext w c n = (t, inr tt) -> raises w n c = None /\ t = [returned c].
Proof. unfold ext. destruct (raises w n c); [done|]. by intros [= <-]. Qed.

Lemma step_ext w {B} c (k : unit -> M B) n t b :
  bind (ext w c) k n = (t, inr b) ->
  raises w n c = None /\
  exists t', t = returned c :: t' /\ k tt (n + 1)%nat = (t', inr b).
Proof.
  intros (t1 & [] & t2 & [? ->]%ext_inr & ? & ->)%bind_inr. eauto.
Qed.

Lemma step_index {B} (l : list scalar) i (k : scalar -> M B) n t b :
  bind (index l i) k n = (t, inr b) ->
  exists x, l !! i = Some x /\ k x n = (t, inr b).
Proof.
  unfold index. destruct (l !! i) as [x|]; [|done].
  rewrite bind_ret_l. eauto.
Qed.

Lemma step_getitem {B} logs key (k : scalar -> M B) n t b :
  bind (getitem logs key) k n = (t, inr b) ->
  exists x, logs !! key = Some x /\ k x n = (t, inr b).
Proof.
  unfold getitem. destruct (logs !! key) as [x|]; [|done].
  rewrite bind_ret_l. eauto.
Qed.

Lemma for_each_cons {A} (body : nat -> A -> M unit) i x l n :
  for_each body i (x :: l) n
  = bind (body i x) (fun _ => for_each body (S i) l) n.
Proof. done. Qed.

Lemma outcome_returned {A} (p : list (@entry scalar) * (exn + A)) (a : A) :
  p.2 = inr a -> p = (p.1, inr a).
Proof. destruct p as [t r]. simpl. by intros ->. Qed.

(** *** The logging callback, when it returns *)

Lemma wandb_on_batch_end_inr w batch logs n t :
  wandb_on_batch_end w batch logs n = (t, inr tt) ->
  exists c, batch_call logs = Some c /\ t = [returned c].
Proof.
  unfold wandb_on_batch_end, batch_call.
  intros (loss & -> & (acc & -> & [? ->]%ext_inr)%step_getitem)%step_getitem.
  simpl. eauto.
Qed.

Lemma wandb_on_epoch_end_inr w epoch logs n t :
  wandb_on_epoch_end w epoch logs n = (t, inr tt) ->
  exists c, epoch_call logs = Some c /\ t = [returned c].
Proof.
  unfold wandb_on_epoch_end, epoch_call, epoch_report, dict_get.
  intros (loss & -> & [? ->]%ext_inr)%step_getitem.
  simpl. destruct (logs !! "val_loss"), (logs !! "val_acc"); simpl; eauto.
Qed.

Lemma hooks_batch_end w batch logs i n :
  for_each (fun _ cb => on_batch_end w cb batch logs) i
           [early_stopping; wandb_callback] n
  = wandb_on_batch_end w batch logs n.
Proof.
  rewrite for_each_cons.
  change (on_batch_end w early_stopping batch logs) with (@ret scalar _ tt).
  rewrite bind_ret_l, for_each_cons. apply bind_ret_r.
Qed.

Lemma hooks_epoch_end w epoch logs i n :
  for_each (fun _ cb => on_epoch_end w cb epoch logs) i
           [early_stopping; wandb_callback] n
  = wandb_on_epoch_end w epoch logs n.
Proof.
  rewrite for_each_cons.
  change (on_epoch_end w early_stopping epoch logs) with (@ret scalar _ tt).
  rewrite bind_ret_l, for_each_cons. apply bind_ret_r.
Qed.

Lemma batches_inr w (l : list (gmap string scalar)) i n t :
  for_each (fun batch logs =>
     for_each (fun _ cb => on_batch_end w cb batch logs) 0%nat
              [early_stopping; wandb_callback]) i l n = (t, inr tt) ->
  t = returned <$> omap batch_call l /\
  Forall (fun logs => is_Some (batch_call logs)) l.
Proof.
  revert i n t. induction l as [|logs l IH]; intros i n t.
  - by intros [= <-].
  - rewrite for_each_cons.
    intros (t1 & [] & t2 & Hhooks & [-> Hl]%IH & ->)%bind_inr.
    rewrite hooks_batch_end in Hhooks.
    apply wandb_on_batch_end_inr in Hhooks as (c & Hc & ->).
    simpl. rewrite Hc. split; [done|]. constructor; eauto.
Qed.

Lemma run_epoch_inr w epoch r n t :
  run_epoch w [early_stopping; wandb_callback] epoch r n = (t, inr tt) ->
  t = returned <$> epoch_calls r /\ epoch_complete r.
Proof.
  unfold run_epoch, epoch_calls, epoch_complete.
  intros (t1 & [] & t2 & [-> Hb]%batches_inr & Hhooks & ->)%bind_inr.
  rewrite hooks_epoch_end in Hhooks.
  apply wandb_on_epoch_end_inr in Hhooks as (c & Hc & ->).
  rewrite fmap_app, Hc. eauto.
Qed.

Lemma epochs_inr w (l : list (@epoch_run scalar)) i n t :
  for_each (run_epoch w [early_stopping; wandb_callback]) i l n = (t, inr tt) ->
  t = returned <$> (l ≫= epoch_calls) /\ Forall epoch_complete l.
Proof.
  revert i n t. induction l as [|r l IH]; intros i n t.
  - by intros [= <-].
  - rewrite for_each_cons.
    intros (t1 & [] & t2 & [-> ?]%run_epoch_inr & [-> Hl]%IH & ->)%bind_inr.
    simpl. rewrite fmap_app. split; [done|]. by constructor.
Qed.

Lemma step_fit w st dm {B} (k : unit -> M B) n t b :
  bind (fit w (caption_model st dm w) (train_dataset st dm w) (EPOCHS st)
            (valid_dataset st dm w) [early_stopping; wandb_callback]) k n
    = (t, inr b) ->
  Forall epoch_complete (epochs_run st w) /\
  exists t' n',
    t = (returned <$> calls_training st dm w) ++ t' /\ k tt n' = (t', inr b).
Proof.
  unfold fit. rewrite bind_assoc.
  intros (_ & t1 & -> & (t2 & [] & t3 & [-> ?]%epochs_inr & ? & ->)%bind_inr)%step_ext.
  split; [done|]. exists t3. eexists. split; [|done].
  unfold calls_training, fit_calls, epochs_run, call_fit. by rewrite fmap_cons.
Qed.

(** One statement of a run that returns: the call was made and returned,
    and the rest of the script ran to its end. *)
Ltac step H :=
  lazymatch type of H with
  | bind (ext _ _) _ _ = (_, inr _) =>
      apply step_ext in H as (_ & ? & -> & H)
  | bind (index _ _) _ _ = (_, inr _) =>
      let R := fresh "Hidx" in
      apply step_index in H as (? & R & H)
  | bind (fit _ _ _ _ _ _) _ _ = (_, inr _) =>
      let R := fresh "Hfit" in
      apply step_fit in H as (R & ? & ? & -> & H)
  | bind (bind _ _) _ _ = _ => rewrite bind_assoc in H
  | bind (ret _) _ _ = _ => rewrite bind_ret_l in H
  | bind (if ?b then _ else _) _ _ = _ => destruct b eqn:?
  | ext _ _ _ = (_, inr _) => apply ext_inr in H as (_ & ->)
  end.

(** A run that reaches its end made exactly the calls of [script_calls],
    and every one of them returned. *)
Lemma execute_completed st dm w t :
  execute st dm w = (t, inr tt) ->
  exists tl ta vl va test,
    metrics_read st dm w tl ta vl va test /\
    t = returned <$> script_calls st dm w tl ta vl va test /\
    Forall epoch_complete (epochs_run st w).
Proof.
  intros H. unfold execute, training in H.
  repeat step H.
  all: simplify_eq.
  all: do 5 eexists.
  all: unfold metrics_read, script_calls, calls_loading, calls_datasets,
         calls_tokenizer, calls_model, calls_evaluation, calls_persistence.
  all: repeat match goal with E : _ = _ |- _ => rewrite E end; simpl.
  all: split; [repeat first [eassumption | reflexivity | eexists | split]|].
  all: split; [|done].
  all: rewrite ?fmap_app; simpl.
  all: repeat f_equal.
  all: symmetry; etrans; [apply (fmap_app returned)|reflexivity].
Qed.

(** *** When a run reaches its end *)

Lemma returns_ret {A} (a : A) : returns (@ret scalar A a) a.
Proof. by intros n. Qed.

Lemma returns_ext w c :
  (forall n c', raises w n c' = None) -> returns (ext w c) tt.
Proof. intros Hquiet n. unfold ext. by rewrite Hquiet. Qed.

Lemma returns_bind {A B} (m : M A) (k : A -> M B) a b :
  returns m a -> returns (k a) b -> returns (bind m k) b.
Proof.
  intros Hm Hk n. unfold bind. specialize (Hm n).
  destruct (m n) as [t1 r]. simpl in Hm. subst r.
  specialize (Hk (n + length t1)%nat). by destruct (k a _).
Qed.

Lemma returns_index (l : list scalar) i x :
  l !! i = Some x -> returns (index l i) x.
Proof. intros Hx n. unfold index. by rewrite Hx. Qed.

Lemma returns_getitem logs key x :
  logs !! key = Some x -> returns (getitem logs key) x.
Proof. intros Hx n. unfold getitem. by rewrite Hx. Qed.

Lemma returns_for_each {A} (body : nat -> A -> M unit) i (l : list A) :
  (forall j x, x ∈ l -> returns (body j x) tt) ->
  returns (for_each body i l) tt.
Proof.
  revert i. induction l as [|x l IH]; intros i Hbody.
  - apply returns_ret.
  - simpl. eapply returns_bind; [apply Hbody; left|].
    apply IH. intros j y Hy. apply Hbody. by right.
Qed.

Lemma returns_batch_end w batch logs :
  (forall n c, raises w n c = None) -> is_Some (batch_call logs) ->
  returns (wandb_on_batch_end w batch logs) tt.
Proof.
  intros Hquiet [c Hc]. unfold batch_call in Hc. unfold wandb_on_batch_end.
  destruct (logs !! "loss") as [loss|] eqn:Hloss; [|done].
  destruct (logs !! "acc") as [acc|] eqn:Hacc; [|done].
  eapply returns_bind; [by apply returns_getitem|].
  eapply returns_bind; [by apply returns_getitem|]. by apply returns_ext.
Qed.

Lemma returns_epoch_end w epoch logs :
  (forall n c, raises w n c = None) -> is_Some (epoch_call logs) ->
  returns (wandb_on_epoch_end w epoch logs) tt.
Proof.
  intros Hquiet [c Hc]. unfold epoch_call in Hc. unfold wandb_on_epoch_end.
  destruct (logs !! "loss") as [loss|] eqn:Hloss; [|done].
  eapply returns_bind; [by apply returns_getitem|]. by apply returns_ext.
Qed.

Lemma returns_fit w m train epochs valid :
  (forall n c, raises w n c = None) ->
  Forall epoch_complete (take (Z.to_nat epochs) (fit_epochs w)) ->
  returns (fit w m train epochs valid [early_stopping; wandb_callback]) tt.
Proof.
  intros Hquiet Hlogs. unfold fit.
  eapply returns_bind; [by apply returns_ext|].
  apply returns_for_each. intros epoch r Hr.
  rewrite Forall_forall in Hlogs. destruct (Hlogs r Hr) as [Hb He].
  unfold run_epoch. eapply returns_bind.
  - apply returns_for_each. intros batch logs Hin.
    rewrite Forall_forall in Hb. specialize (Hb logs Hin).
    apply returns_for_each. intros _ cb _.
    destruct cb; [apply returns_ret|by apply returns_batch_end].
  - apply returns_for_each. intros _ cb _.
    destruct cb; [apply returns_ret|by apply returns_epoch_end].
Qed.

(** If no call raises, every batch and epoch of the training loop carries
    the keys the callback indexes, and [evaluate] returns a loss and an
    accuracy, then the run reaches its end, having made the calls of
    [script_calls]. *)
Lemma execute_completes st dm w tl ta vl va test :
  (forall n c, raises w n c = None) ->
  Forall epoch_complete (epochs_run st w) ->
  metrics_read st dm w tl ta vl va test ->
  execute st dm w = (returned <$> script_calls st dm w tl ta vl va test, inr tt).
Proof.
  intros Hquiet Hlogs Hread.
  assert (Hreturns : returns (training st dm w) tt).
  { destruct Hread as (Htl & Hta & Hvl & Hva & Htest). unfold training.
    destruct (TEST_SET st); [destruct Htest as (sl & sa & _ & Hsl & Hsa)|].
    all: repeat first
           [ apply returns_ext; exact Hquiet
           | apply returns_ret
           | apply returns_fit; [exact Hquiet|exact Hlogs]
           | apply returns_index; eassumption
           | eapply returns_bind
           | match goal with
             | |- returns (if ?b then _ else _) _ => destruct b
             end ]. }
  pose proof (outcome_returned _ _ (Hreturns 0%nat)) as Hrun.
  fold (execute st dm w) in Hrun.
  destruct (execute_completed _ _ _ _ Hrun)
    as (tl' & ta' & vl' & va' & test' & Hread' & Ht & _).
  rewrite Hrun, Ht. do 2 f_equal.
  destruct Hread as (Htl & Hta & Hvl & Hva & Htest).
  destruct Hread' as (Htl' & Hta' & Hvl' & Hva' & Htest').
  destruct (TEST_SET st).
  - destruct Htest as (sl & sa & -> & Hsl & Hsa).
    destruct Htest' as (sl' & sa' & -> & Hsl' & Hsa'). by simplify_eq.
  - by simplify_eq.
Qed.

(** *** What every call of a run satisfies *)

Lemma always_ret (P : @call scalar -> Prop) {A} (a : A) : always P (ret a).
Proof. intros n. constructor. Qed.

Lemma always_ext (P : @call scalar -> Prop) w c : P c -> always P (ext w c).
Proof.
  intros HP n. unfold ext. destruct (raises w n c); by repeat constructor.
Qed.

Lemma always_bind (P : @call scalar -> Prop) {A B} (m : M A) (k : A -> M B) :
  always P m -> (forall a, always P (k a)) -> always P (bind m k).
Proof.
  intros Hm Hk n. unfold bind. specialize (Hm n).
  destruct (m n) as [t [e|a]]; [done|].
  specialize (Hk a (n + length t)%nat). destruct (k a _) as [t' r].
  simpl in *. by apply Forall_app.
Qed.

Lemma always_index (P : @call scalar -> Prop) (l : list scalar) i :
  always P (index l i).
Proof. intros n. unfold index. destruct (l !! i); constructor. Qed.

Lemma always_getitem (P : @call scalar -> Prop) logs key :
  always P (getitem logs key).
Proof. intros n. unfold getitem. destruct (logs !! key); constructor. Qed.

Lemma always_for_each (P : @call scalar -> Prop) {A}
    (body : nat -> A -> M unit) i (l : list A) :
  (forall j x, always P (body j x)) -> always P (for_each body i l).
Proof.
  intros Hbody. revert i. induction l as [|x l IH]; intros i.
  - apply always_ret.
  - simpl. apply always_bind; [apply Hbody|]. intros _. apply IH.
Qed.

Ltac walk_always :=
  repeat first
    [ apply always_bind; [|intros ?]
    | apply always_ext
    | apply always_ret
    | apply always_index
    | apply always_getitem
    | apply always_for_each; intros ? ?
    | match goal with
      | |- always _ (if ?b then _ else _) => destruct b
      | |- always _ (on_batch_end _ ?cb _ _) => destruct cb; simpl
      | |- always _ (on_epoch_end _ ?cb _ _) => destruct cb; simpl
      end ].

(** *** Nothing is caught *)

Lemma all_returned_nil w n : all_returned w n [].
Proof. intros i c o Hi. by rewrite lookup_nil in Hi. Qed.

Lemma all_returned_app w n t1 t2 :
  all_returned w n t1 -> all_returned w (n + length t1) t2 ->
  all_returned w n (t1 ++ t2).
Proof.
  intros H1 H2 i c o Hi. apply lookup_app_Some in Hi as [Hi|[Hlen Hi]].
  - by apply H1.
  - apply H2 in Hi as [-> Hi]. split; [done|]. unfold entry in *.
    by replace (n + i)%nat with (n + length t1 + (i - length t1))%nat by lia.
Qed.

Lemma catches_nothing_ret w {A} (a : A) : catches_nothing w (ret a).
Proof. intros n. apply uncaught_returned, all_returned_nil. Qed.

Lemma catches_nothing_ext w c : catches_nothing w (ext w c).
Proof.
  intros n. unfold ext. destruct (raises w n c) as [e|] eqn:Hc.
  - apply (uncaught_raised w n []); [apply all_returned_nil|].
    simpl. by rewrite Nat.add_0_r.
  - apply uncaught_returned. intros [|i] c' o Hi; simplify_eq/=.
    by rewrite Nat.add_0_r.
Qed.

Lemma catches_nothing_bind w {A B} (m : M A) (k : A -> M B) :
  catches_nothing w m -> (forall a, catches_nothing w (k a)) ->
  catches_nothing w (bind m k).
Proof.
  intros Hm Hk n. specialize (Hm n). unfold bind. destruct (m n) as [t [e|a]].
  { inversion Hm; subst; [by apply uncaught_returned|by apply uncaught_raised]. }
  inversion Hm as [? ? Ht|]; subst.
  specialize (Hk a (n + length t)%nat). destruct (k a _) as [t' r].
  inversion Hk as [? ? Ht'|t0 c e Ht0 Hc]; subst.
  - apply uncaught_returned. by apply all_returned_app.
  - rewrite (assoc_L (++)). apply uncaught_raised; [by apply all_returned_app|].
    by rewrite length_app, Nat.add_assoc.
Qed.

Lemma catches_nothing_index w (l : list scalar) i :
  catches_nothing w (index l i).
Proof.
  intros n. unfold index.
  destruct (l !! i); apply uncaught_returned, all_returned_nil.
Qed.

Lemma catches_nothing_getitem w logs key : catches_nothing w (getitem logs key).
Proof.
  intros n. unfold getitem.
  destruct (logs !! key); apply uncaught_returned, all_returned_nil.
Qed.

Lemma catches_nothing_for_each w {A} (body : nat -> A -> M unit) i (l : list A) :
  (forall j x, catches_nothing w (body j x)) ->
  catches_nothing w (for_each body i l).
Proof.
  intros Hbody. revert i. induction l as [|x l IH]; intros i.
  - apply catches_nothing_ret.
  - simpl. apply catches_nothing_bind; [apply Hbody|]. intros _. apply IH.
Qed.

(** The script has no handler: it is built from calls, indexing, sequencing,
    branches and the callback loop alone. *)
Lemma training_catches_nothing st dm w : catches_nothing w (training st dm w).
Proof.
  unfold training, fit, run_epoch.
  repeat first
    [ apply catches_nothing_bind; [|intros ?]
    | apply catches_nothing_ext
    | apply catches_nothing_ret
    | apply catches_nothing_index
    | apply catches_nothing_getitem
    | apply catches_nothing_for_each; intros ? ?
    | match goal with
      | |- catches_nothing _ (if ?b then _ else _) => destruct b
      | |- catches_nothing _ (on_batch_end _ ?cb _ _) => destruct cb; simpl
      | |- catches_nothing _ (on_epoch_end _ ?cb _ _) => destruct cb; simpl
      | |- catches_nothing _ (wandb_on_batch_end _ _ _) =>
          unfold wandb_on_batch_end
      | |- catches_nothing _ (wandb_on_epoch_end _ _ _) =>
          unfold wandb_on_epoch_end
      end ].
Qed.

(** A handler would show: a call that raises and is caught is followed by
    a normal result. *)
Lemma handler_is_seen w c e :
  raises w 0%nat c = Some e ->
  ~ catches_nothing w (try_except (ext w c) (fun _ => ret tt)).
Proof.
  intros Hc Hnone. specialize (Hnone 0%nat).
  unfold try_except, ext, ret in Hnone. rewrite Hc in Hnone. simpl in Hnone.
  inversion Hnone as [? ? Ht|]; subst.
  by destruct (Ht 0%nat c (Raised e) eq_refl).
Qed.

(** Two of the failures, from the first statements of the script: the
    API-key file cannot be opened, or the tracker refuses the key. *)
Lemma api_key_file_missing st dm w e :
  raises w 0%nat (py_open "apikey.txt" "r") = Some e ->
  execute st dm w = ([(py_open "apikey.txt" "r", Raised e)], inl e).
Proof.
  intros Hopen. unfold execute, training.
  unfold bind at 1. unfold ext at 1. by rewrite Hopen.
Qed.

Lemma login_refused st dm w e :
  raises w 0%nat (py_open "apikey.txt" "r") = None ->
  raises w 1%nat (wandb_login (api_key w)) = Some e ->
  execute st dm w =
    ([(py_open "apikey.txt" "r", Returned); (wandb_login (api_key w), Raised e)],
     inl e).
Proof.
  intros Hopen Hlogin. unfold execute, training.
  unfold bind at 1. unfold ext at 1. rewrite Hopen. simpl.
  unfold bind at 1. unfold ext at 1. by rewrite Hlogin.
Qed.

(** C6.  Whatever call raises (a missing API-key or dataset file at [open],
    malformed JSON at [json.load], a refused login, an exception of the
    framework or of the tracker), the script catches nothing and retries
    nothing: if the [i]-th call of a run is one that raises in its
    environment, it is the last call of the run, every call before it
    returned, and its exception is what the run ends with. *)
Theorem exceptions_propagate st dm w t r i c o e :
  execute st dm w = (t, r) ->
  t !! i = Some (c, o) ->
  raises w i c = Some e ->
  r = inl e /\ o = Raised e /\ length t = S i /\
  forall j c' o', (j < i)%nat -> t !! j = Some (c', o') ->
                  o' = Returned /\ raises w j c' = None.
Proof.
  intros Hrun Hi Hc. pose proof (training_catches_nothing st dm w 0%nat) as Hu.
  unfold execute in Hrun. rewrite Hrun in Hu.
  inversion Hu as [? ? Ht|t0 c' e' Ht0 Hc']; subst.
  - destruct (Ht _ _ _ Hi) as [_ Hnone]. simpl in Hnone. congruence.
  - apply lookup_app_Some in Hi as [Hi|[Hlen Hi]].
    + destruct (Ht0 _ _ _ Hi) as [_ Hnone]. simpl in Hnone. congruence.
    + unfold entry in *. apply list_lookup_singleton_Some in Hi as [Hk Heq].
      assert (i = length t0) as -> by lia. simpl in Hc'. simplify_eq.
      split; [done|]. split; [done|].
      split; [by rewrite length_app, Nat.add_1_r|].
      intros j c1 o1 Hj Hlook. rewrite lookup_app_l in Hlook by done.
      by destruct (Ht0 _ _ _ Hlook).
Qed.

(** *** Membership in the calls of a complete run *)

Lemma calls_returned (cs : list (@call scalar)) : (returned <$> cs).*1 = cs.
Proof. induction cs as [|c cs IH]; simpl; by f_equal. Qed.

Ltac in_calls :=
  solve [ repeat first
            [ apply list_elem_of_here
            | apply list_elem_of_further
            | apply elem_of_app; right ] ].

Lemma no_test_reports st dm w :
  TEST_SET st = false ->
  always (fun c => reports test_metric_keys c = false) (training st dm w).
Proof.
  intros Hoff. unfold training, fit, run_epoch. rewrite Hoff.
  unfold wandb_on_batch_end, wandb_on_epoch_end.
  walk_always.
  all: try reflexivity.
  all: unfold wandb_on_batch_end, wandb_on_epoch_end; walk_always; reflexivity.
Qed.

(** C2.  With [TEST_SET] off, no call to the tracker carries a test-metric
    key and no printed line has one in its text, in any run, complete or
    not.  With [TEST_SET] on, a run that reaches its end has built the test
    dataset (the second part of the split of the validation mapping,
    without augmentation, on the fitted tokenizer), evaluated the model on
    it, logged the first two entries of the result as its loss and
    accuracy and printed them. *)
Theorem test_metrics_follow_flag st dm w t r :
  execute st dm w = (t, r) ->
  (TEST_SET st = false ->
   Forall (fun c => reports test_metric_keys c = false) t.*1) /\
  (TEST_SET st = true -> r = inr tt ->
   let fitted :=
     adapt {| max_tokens := MAX_VOCAB_SIZE st; output_mode := "int";
              output_sequence_length := SEQ_LENGTH st;
              standardize := custom_standardization dm; ngrams := 1;
              learned := [] |}
           (json_corpus w (text_data_json_path st)) in
   let block :=
     {| enc_embed_dim := EMBED_DIM st; enc_dense_dim := FF_DIM st;
        enc_num_heads := NUM_HEADS st |} in
   let model :=
     {| m_cnn_model := cnn_model; m_encoder := block; m_encoder2 := block;
        m_decoder :=
          {| dec_embed_dim := EMBED_DIM st; dec_ff_dim := FF_DIM st;
             dec_num_heads := NUM_HEADS st;
             vocab_size := len (get_vocabulary fitted) |} |} in
   let valid :=
     if REDUCE_DATASET st
     then (reduce_dataset_dim dm (json_samples w (train_data_json_path st))
                                 (json_samples w (valid_data_json_path st))).2
     else json_samples w (valid_data_json_path st) in
   let held_out := (valid_test_split dm valid).2 in
   let test_set := make_dataset (keys held_out) (values held_out) false fitted in
   exists sl sa before between after,
     evaluate_result w test_set !! 0%nat = Some sl /\
     evaluate_result w test_set !! 1%nat = Some sa /\
     t.*1 = before ++ call_make_dataset test_set ::
            between ++ model_evaluate model test_set (BATCH_SIZE st) ::
            wandb_log {[ "Test Loss" := VFloat sl; "Test Accuracy" := VFloat sa ]} ::
            after /\
     print [Fmt "Test Loss = %.4f - Test Accuracy = %.4f" [VFloat sl; VFloat sa]]
       ∈ after).
Proof.
  intros Hrun. split.
  - intros Hoff. pose proof (no_test_reports st dm w Hoff 0%nat) as H.
    unfold execute in Hrun. rewrite Hrun in H. by apply Forall_fmap.
  - intros Hon -> fitted block model valid held_out test_set.
    apply execute_completed in Hrun
      as (tl & ta & vl & va & test & (_ & _ & _ & _ & Htest) & -> & _).
    rewrite Hon in Htest. destruct Htest as (sl & sa & -> & Hsl & Hsa).
    exists sl, sa,
      (calls_loading st dm w ++ calls_tokenizer st dm w ++
       [ call_valid_test_split (valid_data_unsplit st dm w);
         print [Lit "Number of validation samples after splitting with test set: ";
                Val (VInt (len (valid_data st dm w)))];
         print [Lit "Number of test samples: ";
                Val (VInt (len (test_data st dm w)))];
         call_make_dataset (train_dataset st dm w);
         call_make_dataset (valid_dataset st dm w) ]),
      (calls_model st dm w ++ calls_training st dm w ++
       [ model_evaluate (caption_model st dm w) (train_dataset st dm w)
                        (BATCH_SIZE st);
         model_evaluate (caption_model st dm w) (valid_dataset st dm w)
                        (BATCH_SIZE st);
         summary_report tl ta vl va ]),
      ([ metrics_print "Train Loss = %.4f - Train Accuracy = %.4f" tl ta;
         metrics_print "Valid Loss = %.4f - Valid Accuracy = %.4f" vl va;
         metrics_print "Test Loss = %.4f - Test Accuracy = %.4f" sl sa ] ++
       calls_persistence st dm w ++ [run_finish]).
    rewrite calls_returned.
    split; [exact Hsl|]. split; [exact Hsa|]. split.
    + unfold script_calls, calls_datasets, calls_evaluation. rewrite Hon.
      simpl. rewrite <- !(assoc_L (++)). reflexivity.
    + in_calls.
Qed.

(** *** Picking calls out of a complete run *)

Lemma fit_calls_reports st w c :
  c ∈ fit_calls st w ->
  (exists loss acc, c = batch_report loss acc) \/
  (exists loss val_loss val_acc, c = epoch_report loss val_loss val_acc).
Proof.
  unfold fit_calls. intros (r & Hc & _)%list_elem_of_bind.
  unfold epoch_calls in Hc. apply elem_of_app in Hc as [Hc|Hc].
  - apply list_elem_of_omap in Hc as (logs & _ & Hc). unfold batch_call in Hc.
    destruct (logs !! "loss") as [loss|]; [|done].
    destruct (logs !! "acc") as [acc|]; [|done].
    injection Hc as <-. left. by exists loss, acc.
  - unfold epoch_call in Hc.
    destruct (epoch_logs r !! "loss") as [loss|]; [|by apply elem_of_nil in Hc].
    apply list_elem_of_singleton in Hc as ->. right.
    by exists loss, (epoch_logs r !! "val_loss"), (epoch_logs r !! "val_acc").
Qed.

Lemma select_fit_calls st w (f : @call scalar -> bool) :
  (forall loss acc, f (batch_report loss acc) = false) ->
  (forall loss val_loss val_acc, f (epoch_report loss val_loss val_acc) = false) ->
  List.filter f (fit_calls st w) = [].
Proof.
  intros Hb He. pose proof (fit_calls_reports st w) as Hlogs.
  induction (fit_calls st w) as [|c cs IH]; [done|]. simpl.
  destruct (Hlogs c) as [(? & ? & ->)|(? & ? & ? & ->)]; [left|..];
    rewrite ?Hb, ?He; apply IH; intros c' Hc'; apply Hlogs; by right.
Qed.

Lemma select_all_fit_calls st w (f : @call scalar -> bool) :
  (forall loss acc, f (batch_report loss acc) = true) ->
  (forall loss val_loss val_acc, f (epoch_report loss val_loss val_acc) = true) ->
  List.filter f (fit_calls st w) = fit_calls st w.
Proof.
  intros Hb He. pose proof (fit_calls_reports st w) as Hlogs.
  induction (fit_calls st w) as [|c cs IH]; [done|]. simpl.
  destruct (Hlogs c) as [(? & ? & ->)|(? & ? & ? & ->)]; [left|..];
    rewrite ?Hb, ?He; f_equal; apply IH; intros c' Hc'; apply Hlogs; by right.
Qed.

Ltac unfold_calls :=
  unfold script_calls, calls_loading, calls_tokenizer, calls_datasets,
    calls_model, calls_training, calls_evaluation, calls_persistence.

Ltac split_flags :=
  repeat match goal with
         | |- context [if REDUCE_DATASET ?st then _ else _] =>
             destruct (REDUCE_DATASET st)
         | |- context [if TEST_SET ?st then _ else _] =>
             destruct (TEST_SET st)
         | |- context [match ?x with Some _ => _ | None => _ end] =>
             is_var x; destruct x as [[? ?]|]
         end.

Ltac fit_case :=
  intros;
  try match goal with
      | |- context [epoch_report _ ?a ?b] => destruct a, b
      end;
  reflexivity.

Ltac selects :=
  unfold select; unfold_calls; split_flags; simpl;
  rewrite ?List.filter_app, ?select_fit_calls by fit_case;
  try reflexivity.

(** C1.  In a run that reaches its end the tokenizer is adapted exactly
    once, on the text corpus, after the corpus was loaded and before any
    dataset is built; and the decoder block is built with [vocab_size] the
    length of the adapted tokenizer's vocabulary. *)
Theorem adapt_once_before_datasets st dm w t :
  execute st dm w = (t, inr tt) ->
  let adapting := tokenizer_adapt (tokenizer_unfitted st dm)
                    (json_corpus w (text_data_json_path st)) in
  select is_adapt t.*1 = [adapting] /\
  (exists before after,
     t.*1 = before ++ adapting :: after /\
     json_load (text_data_json_path st) ∈ before /\
     select is_make_dataset before = [] /\
     select is_make_dataset after =
       call_make_dataset (train_dataset st dm w) ::
       call_make_dataset (valid_dataset st dm w) ::
       (if TEST_SET st then [call_make_dataset (test_dataset st dm w)] else [])) /\
  select is_decoder t.*1 = [new_TransformerDecoderBlock (decoder st dm w)] /\
  vocab_size (decoder st dm w) =
    len (get_vocabulary
           (adapt (tokenizer_unfitted st dm)
                  (json_corpus w (text_data_json_path st)))).
Proof.
  intros Hrun adapting.
  apply execute_completed in Hrun as (tl & ta & vl & va & test & Hm & -> & _).
  rewrite calls_returned. split; [by selects|]. split; [|split; [by selects|done]].
  exists (calls_loading st dm w ++ [new_TextVectorization (tokenizer_unfitted st dm)]),
    (tokenizer_get_vocabulary (tokenizer st dm w) ::
     calls_datasets st dm w ++ calls_model st dm w ++ calls_training st dm w ++
     calls_evaluation st dm w tl ta vl va test ++
     calls_persistence st dm w ++ [run_finish]).
  split; [|split; [|split]].
  - unfold script_calls, calls_tokenizer. by rewrite <- (assoc_L (++)).
  - unfold calls_loading. in_calls.
  - by selects.
  - by selects.
Qed.

Lemma prefix_append (s1 s2 : string) : String.prefix s1 (s1 +:+ s2) = true.
Proof.
  induction s1 as [|a s1 IH]; [by destruct s2|].
  change (String a s1 +:+ s2) with (String a (s1 +:+ s2)). simpl.
  by destruct (Ascii.ascii_dec a a).
Qed.

Lemma inside_append dir name :
  ends_with_separator dir = true -> inside dir (dir +:+ name) = true.
Proof. intros Hdir. unfold inside. rewrite Hdir. apply prefix_append. Qed.

Lemma writes_close_the_run st dm w t :
  execute st dm w = (t, inr tt) ->
  exists before,
    t.*1 = before ++ calls_persistence st dm w ++ [run_finish] /\
    select is_persistence before = [] /\
    select is_evaluate before =
      model_evaluate (caption_model st dm w) (train_dataset st dm w) (BATCH_SIZE st) ::
      model_evaluate (caption_model st dm w) (valid_dataset st dm w) (BATCH_SIZE st) ::
      (if TEST_SET st
       then [model_evaluate (caption_model st dm w) (test_dataset st dm w)
                            (BATCH_SIZE st)]
       else []).
Proof.
  intros Hrun.
  apply execute_completed in Hrun as (tl & ta & vl & va & test & Hm & -> & _).
  rewrite calls_returned.
  exists (calls_loading st dm w ++ calls_tokenizer st dm w ++
          calls_datasets st dm w ++ calls_model st dm w ++
          calls_training st dm w ++ calls_evaluation st dm w tl ta vl va test).
  split; [|split].
  - unfold script_calls. by rewrite <- !(assoc_L (++)).
  - by selects.
  - destruct Hm as (_ & _ & _ & _ & Htest). unfold select; unfold_calls.
    destruct (TEST_SET st); [destruct Htest as (sl & sa & -> & _)|subst test];
      by selects.
Qed.

(** C5, as amended.  A run that reaches its end ends with the writes, in
    this order: the history to [history.json], the weights to their file
    and that file to the tracker, the training configuration to
    [config_train.json], the fitted tokenizer through [save_tokenizer].
    No write comes earlier, and every evaluation does.  The path of each
    of the three files is [SAVE_DIR] with the name of the file right after
    it, and [save_tokenizer] is given [SAVE_DIR] itself: the files are
    inside the save directory where [SAVE_DIR] ends with the separator. *)
Theorem persistence_order st dm w t :
  execute st dm w = (t, inr tt) ->
  let fitted :=
    adapt {| max_tokens := MAX_VOCAB_SIZE st; output_mode := "int";
             output_sequence_length := SEQ_LENGTH st;
             standardize := custom_standardization dm; ngrams := 1;
             learned := [] |}
          (json_corpus w (text_data_json_path st)) in
  let block :=
    {| enc_embed_dim := EMBED_DIM st; enc_dense_dim := FF_DIM st;
       enc_num_heads := NUM_HEADS st |} in
  let model :=
    {| m_cnn_model := cnn_model; m_encoder := block; m_encoder2 := block;
       m_decoder :=
         {| dec_embed_dim := EMBED_DIM st; dec_ff_dim := FF_DIM st;
            dec_num_heads := NUM_HEADS st;
            vocab_size := len (get_vocabulary fitted) |} |} in
  let config : gmap string pyval :=
    {[ "IMAGE_SIZE" := VList [VInt (IMAGE_SIZE st).1; VInt (IMAGE_SIZE st).2];
       "MAX_VOCAB_SIZE" := VInt (MAX_VOCAB_SIZE st);
       "SEQ_LENGTH" := VInt (SEQ_LENGTH st);
       "EMBED_DIM" := VInt (EMBED_DIM st);
       "NUM_HEADS" := VInt (NUM_HEADS st);
       "FF_DIM" := VInt (FF_DIM st);
       "BATCH_SIZE" := VInt (BATCH_SIZE st);
       "EPOCHS" := VInt (EPOCHS st);
       "VOCAB_SIZE" := VInt (len (get_vocabulary fitted)) ]} in
  let reduced :=
    reduce_dataset_dim dm (json_samples w (train_data_json_path st))
                          (json_samples w (valid_data_json_path st)) in
  let train :=
    if REDUCE_DATASET st then reduced.1
    else json_samples w (train_data_json_path st) in
  let valid :=
    if REDUCE_DATASET st then reduced.2
    else json_samples w (valid_data_json_path st) in
  let parts := valid_test_split dm valid in
  let dataset (part : samples) (augment : bool) :=
    make_dataset (keys part) (values part) augment fitted in
  let files :=
    [ SAVE_DIR st +:+ "history.json";
      SAVE_DIR st +:+ "big_model_weights_coco.weights.h5";
      SAVE_DIR st +:+ "config_train.json" ] in
  (exists before,
     t.*1 = before ++
       [ py_open (SAVE_DIR st +:+ "history.json") "w";
         json_dump (fit_history w) (SAVE_DIR st +:+ "history.json");
         model_save_weights model
           (SAVE_DIR st +:+ "big_model_weights_coco.weights.h5");
         run_save (SAVE_DIR st +:+ "big_model_weights_coco.weights.h5");
         py_open (SAVE_DIR st +:+ "config_train.json") "w";
         json_dump config (SAVE_DIR st +:+ "config_train.json");
         save_tokenizer fitted (SAVE_DIR st);
         run_finish ] /\
     select is_persistence before = [] /\
     select is_evaluate before =
       model_evaluate model (dataset train (TRAIN_SET_AUG st)) (BATCH_SIZE st) ::
       model_evaluate model (dataset parts.1 (VALID_SET_AUG st)) (BATCH_SIZE st) ::
       (if TEST_SET st
        then [model_evaluate model (dataset parts.2 false) (BATCH_SIZE st)]
        else [])) /\
  (ends_with_separator (SAVE_DIR st) = true ->
   Forall (fun path => inside (SAVE_DIR st) path = true) files).
Proof.
  intros Hrun fitted block model config reduced train valid parts dataset files.
  split.
  - exact (writes_close_the_run st dm w t Hrun).
  - intros Hdir. subst files. repeat constructor; by apply inside_append.
Qed.

(** C7.  A run that reaches its end builds the early-stopping callback
    with patience 3 and restoration of the best weights, on the
    framework's default criterion, the validation loss; and its one call
    of [fit] installs that callback together with the logging callback. *)
Theorem early_stopping_installed st dm w t :
  execute st dm w = (t, inr tt) ->
  select is_fit_or_early_stopping t.*1 =
    [ new_EarlyStopping (EarlyStopping "val_loss" 3 true);
      model_fit (caption_model st dm w) (train_dataset st dm w) (EPOCHS st)
                (valid_dataset st dm w)
                [EarlyStopping "val_loss" 3 true; wandb_callback] ].
Proof.
  intros Hrun.
  apply execute_completed in Hrun as (tl & ta & vl & va & test & Hm & -> & _).
  rewrite calls_returned. by selects.
Qed.

(** C9.  The validation mapping is split in every run that reaches its
    end, whatever [TEST_SET]: the validation dataset that [fit] and
    [evaluate] get is built from the first part of the split.  With
    [TEST_SET] off the second part is dropped: no dataset is built from it
    and nothing is evaluated on it. *)
Theorem split_is_unconditional st dm w t :
  execute st dm w = (t, inr tt) ->
  let parts := valid_test_split dm (valid_data_unsplit st dm w) in
  let validation :=
    make_dataset (keys parts.1) (values parts.1) (VALID_SET_AUG st)
                 (tokenizer st dm w) in
  select is_split t.*1 = [call_valid_test_split (valid_data_unsplit st dm w)] /\
  select is_fit t.*1 =
    [ model_fit (caption_model st dm w) (train_dataset st dm w) (EPOCHS st)
                validation [early_stopping; wandb_callback] ] /\
  select is_make_dataset t.*1 =
    call_make_dataset (train_dataset st dm w) ::
    call_make_dataset validation ::
    (if TEST_SET st then [call_make_dataset (test_dataset st dm w)] else []) /\
  select is_evaluate t.*1 =
    model_evaluate (caption_model st dm w) (train_dataset st dm w) (BATCH_SIZE st) ::
    model_evaluate (caption_model st dm w) validation (BATCH_SIZE st) ::
    (if TEST_SET st
     then [model_evaluate (caption_model st dm w) (test_dataset st dm w)
                          (BATCH_SIZE st)]
     else []).
Proof.
  intros Hrun parts validation.
  apply execute_completed in Hrun as (tl & ta & vl & va & test & Hm & -> & _).
  rewrite calls_returned.
  destruct Hm as (_ & _ & _ & _ & Htest).
  repeat split.
  1, 2: by selects.
  all: unfold select; unfold_calls.
  all: destruct (TEST_SET st); [destruct Htest as (sl & sa & -> & _)|subst test];
    by selects.
Qed.

(** *** The size of the vocabulary *)

Lemma length_rank_insert a (l : list (string * nat)) :
  length (rank_insert a l) = S (length l).
Proof.
  induction l as [|b l IH]; simpl; [done|].
  destruct (ranks_before a b); simpl; by rewrite ?IH.
Qed.

Lemma length_rank (l : list (string * nat)) : length (rank l) = length l.
Proof.
  induction l as [|a l IH]; simpl; [done|].
  by rewrite length_rank_insert, IH.
Qed.

Lemma length_counted (toks : list string) (l : list string) :
  length (filter (fun tc : string * nat => is_reserved tc.1 = false)
                 (map (fun tok => (tok, count_token tok toks)) l))
  = length (filter (fun tok => is_reserved tok = false) l).
Proof.
  induction l as [|tok l IH]; [done|]. simpl.
  rewrite !filter_cons. simpl.
  destruct (decide (is_reserved tok = false)); simpl; by rewrite IH.
Qed.

Lemma vocabulary_length (tv : TextVectorization) corpus :
  length (get_vocabulary (adapt tv corpus)) =
  Nat.min (Z.to_nat (max_tokens tv))
          (2 + Nat.min (Z.to_nat (max_tokens tv - 2))
                       (length (unique_tokens (standardize tv) corpus)))%nat.
Proof.
  unfold get_vocabulary, adapt, unique_tokens, token_counts. simpl.
  rewrite length_take. simpl.
  rewrite length_take, length_fmap, length_rank, length_counted.
  done.
Qed.

Lemma VOCAB_SIZE_capped st dm w :
  VOCAB_SIZE st dm w =
  Z.min (Z.max 0 (MAX_VOCAB_SIZE st))
        (len (unique_tokens (custom_standardization dm) (text_data st w)) +
         len reserved_tokens).
Proof.
  unfold VOCAB_SIZE, tokenizer, len.
  rewrite vocabulary_length. simpl. lia.
Qed.

(** C3, as amended.  The VOCAB_SIZE field written to [config_train.json]
    is the length of the fitted tokenizer's vocabulary: the count of the
    distinct tokens of the standardized corpus that are not spelled like
    a reserved token, plus the two reserved tokens, capped at
    [MAX_VOCAB_SIZE].  The vocabulary is read right after the adaptation,
    before the split and before any dataset is built. *)
Theorem config_vocab_size st dm w t :
  execute st dm w = (t, inr tt) ->
  let corpus := json_corpus w (text_data_json_path st) in
  let unfitted :=
    {| max_tokens := MAX_VOCAB_SIZE st; output_mode := "int";
       output_sequence_length := SEQ_LENGTH st;
       standardize := custom_standardization dm; ngrams := 1;
       learned := [] |} in
  let fitted := adapt unfitted corpus in
  let distinct :=
    len (filter (fun tok => tok ∉ ["" ; "[UNK]"])
                (remove_dups
                   (concat (map (fun text =>
                                   String.words (custom_standardization dm text))
                                corpus)))) in
  let size := len (get_vocabulary fitted) in
  let reduced :=
    reduce_dataset_dim dm (json_samples w (train_data_json_path st))
                          (json_samples w (valid_data_json_path st)) in
  let train :=
    if REDUCE_DATASET st then reduced.1
    else json_samples w (train_data_json_path st) in
  let valid :=
    if REDUCE_DATASET st then reduced.2
    else json_samples w (valid_data_json_path st) in
  let parts := valid_test_split dm valid in
  (0 <= MAX_VOCAB_SIZE st ->
   size = Z.min (MAX_VOCAB_SIZE st) (distinct + 2)) /\
  select is_json_dump t.*1 =
    [ json_dump (fit_history w) (SAVE_DIR st +:+ "history.json");
      json_dump
        {[ "IMAGE_SIZE" := VList [VInt (IMAGE_SIZE st).1; VInt (IMAGE_SIZE st).2];
           "MAX_VOCAB_SIZE" := VInt (MAX_VOCAB_SIZE st);
           "SEQ_LENGTH" := VInt (SEQ_LENGTH st);
           "EMBED_DIM" := VInt (EMBED_DIM st);
           "NUM_HEADS" := VInt (NUM_HEADS st);
           "FF_DIM" := VInt (FF_DIM st);
           "BATCH_SIZE" := VInt (BATCH_SIZE st);
           "EPOCHS" := VInt (EPOCHS st);
           "VOCAB_SIZE" := VInt size ]}
        (SAVE_DIR st +:+ "config_train.json") ] /\
  exists before after,
    t.*1 = before ++ tokenizer_adapt unfitted corpus ::
                     tokenizer_get_vocabulary fitted :: after /\
    select is_split_or_make_dataset before = [] /\
    select is_split_or_make_dataset after =
      call_valid_test_split valid ::
      call_make_dataset
        (make_dataset (keys train) (values train) (TRAIN_SET_AUG st) fitted) ::
      call_make_dataset
        (make_dataset (keys parts.1) (values parts.1) (VALID_SET_AUG st) fitted) ::
      (if TEST_SET st
       then [call_make_dataset
               (make_dataset (keys parts.2) (values parts.2) false fitted)]
       else []).
Proof.
  intros Hrun corpus unfitted fitted distinct size reduced train valid parts.
  pose proof (VOCAB_SIZE_capped st dm w) as Hsize.
  apply execute_completed in Hrun as (tl & ta & vl & va & test & Hm & -> & _).
  rewrite calls_returned. split; [|split].
  - intros Hmax. change size with (VOCAB_SIZE st dm w). rewrite Hsize.
    replace (len (unique_tokens (custom_standardization dm) (text_data st w)))
      with distinct; [change (len reserved_tokens) with 2; lia|].
    subst distinct. unfold unique_tokens, corpus_tokens, len. do 2 f_equal.
    apply list_filter_iff. intros tok. unfold is_reserved, reserved_tokens.
    by rewrite bool_decide_eq_false.
  - by selects.
  - exists (calls_loading st dm w ++ [new_TextVectorization (tokenizer_unfitted st dm)]),
      (calls_datasets st dm w ++ calls_model st dm w ++ calls_training st dm w ++
       calls_evaluation st dm w tl ta vl va test ++
       calls_persistence st dm w ++ [run_finish]).
    split; [|split].
    + unfold script_calls, calls_tokenizer. by rewrite <- (assoc_L (++)).
    + by selects.
    + by selects.
Qed.

(** C4, as amended.  In a run that reaches its end, the calls that report
    under the callback's keys are exactly [fit_calls]: for every epoch
    that ran, one call per batch with the training loss and the training
    accuracy of the batch, then one call with the training loss, the
    validation loss and the validation accuracy of the epoch ([None] for
    a validation metric that is missing).  Every batch and every epoch
    got its call. *)
Theorem callback_forwards st dm w t :
  execute st dm w = (t, inr tt) ->
  select (reports callback_keys) t.*1 =
    (take (Z.to_nat (EPOCHS st)) (fit_epochs w) ≫= fun r =>
       omap batch_call (batch_logs r) ++ option_list (epoch_call (epoch_logs r))) /\
  Forall (fun r =>
            Forall (fun logs =>
                      exists loss acc,
                        logs !! "loss" = Some loss /\ logs !! "acc" = Some acc /\
                        batch_call logs =
                          Some (wandb_log
                                  {[ "batch_train_loss" := VFloat loss;
                                     "batch_train_accuracy" := VFloat acc ]}))
                   (batch_logs r) /\
            exists loss,
              epoch_logs r !! "loss" = Some loss /\
              epoch_call (epoch_logs r) =
                Some (wandb_log
                        {[ "epoch_train_loss" := VFloat loss;
                           "epoch_valid_loss" :=
                             from_option VFloat VNone (epoch_logs r !! "val_loss");
                           "epoch_valid_accuracy" :=
                             from_option VFloat VNone (epoch_logs r !! "val_acc") ]}))
         (take (Z.to_nat (EPOCHS st)) (fit_epochs w)).
Proof.
  intros Hrun.
  apply execute_completed in Hrun as (tl & ta & vl & va & test & Hm & -> & Hlogs).
  rewrite calls_returned. split.
  - unfold select; unfold_calls; split_flags; simpl.
    all: rewrite ?List.filter_app, select_all_fit_calls by fit_case.
    all: symmetry; etrans; [symmetry; apply (right_id_L [] (++))|reflexivity].
  - eapply Forall_impl; [exact Hlogs|]. intros r [Hb He]. split.
    + eapply Forall_impl; [exact Hb|]. intros logs Hs. unfold batch_call in *.
      destruct (logs !! "loss") as [loss|]; [|by destruct Hs].
      destruct (logs !! "acc") as [acc|]; [|by destruct Hs]. eauto.
    + unfold epoch_call in *.
      destruct (epoch_logs r !! "loss") as [loss|]; [|by destruct He]. eauto.
Qed.

(** The reports of the sample counts, in a run that reaches its end. *)
Lemma count_reports st dm w t :
  execute st dm w = (t, inr tt) ->
  select is_count_report t.*1 =
    [ print [Lit "Number of training samples: ";
             Val (VInt (len (train_data st dm w)))];
      print [Lit "Number of validation samples: ";
             Val (VInt (len (valid_data_unsplit st dm w)))];
      wandb_log
        {[ "Number of training samples" := VInt (len (train_data st dm w));
           "Number of validation samples" :=
             VInt (len (valid_data_unsplit st dm w)) ]} ].
Proof.
  intros Hrun.
  apply execute_completed in Hrun as (tl & ta & vl & va & test & Hm & -> & _).
  rewrite calls_returned. by selects.
Qed.

(** C8.  Two runs that reach their end with the same reduction flag and
    the same train and validation mappings report the same sample
    counts, on the console and to the tracker: the sizes of the two
    mappings, or of what [reduce_dataset_dim] makes of them when the flag
    is on. *)
Theorem sample_counts_deterministic st1 st2 dm w1 w2 t1 t2 :
  REDUCE_DATASET st1 = REDUCE_DATASET st2 ->
  json_samples w1 (train_data_json_path st1)
    = json_samples w2 (train_data_json_path st2) ->
  json_samples w1 (valid_data_json_path st1)
    = json_samples w2 (valid_data_json_path st2) ->
  execute st1 dm w1 = (t1, inr tt) ->
  execute st2 dm w2 = (t2, inr tt) ->
  let train := json_samples w1 (train_data_json_path st1) in
  let valid := json_samples w1 (valid_data_json_path st1) in
  let counted :=
    if REDUCE_DATASET st1 then reduce_dataset_dim dm train valid
    else (train, valid) in
  select is_count_report t1.*1 = select is_count_report t2.*1 /\
  select is_count_report t1.*1 =
    [ print [Lit "Number of training samples: "; Val (VInt (len counted.1))];
      print [Lit "Number of validation samples: "; Val (VInt (len counted.2))];
      wandb_log {[ "Number of training samples" := VInt (len counted.1);
                   "Number of validation samples" := VInt (len counted.2) ]} ].
Proof.
  intros Hflag Htrain Hvalid Hrun1 Hrun2 train valid counted.
  rewrite (count_reports _ _ _ _ Hrun1), (count_reports _ _ _ _ Hrun2).
  unfold train_data, valid_data_unsplit, train_data_json, valid_data_json.
  rewrite <- Hflag, <- Htrain, <- Hvalid. subst counted train valid.
  by destruct (REDUCE_DATASET st1).
Qed.

(** C10, as amended.  The per-epoch callback reads the validation loss and
    accuracy with a default and reports [None] for the missing ones, so a
    missing validation metric never makes it raise; it indexes ['loss']
    directly and raises [KeyError] exactly when that key is missing.  The
    per-batch callback indexes ['loss'] and ['acc'] directly and raises
    [KeyError] exactly when one of them is missing. *)
Theorem callback_key_errors w k logs n :
  (forall loss, logs !! "loss" = Some loss ->
     wandb_on_epoch_end w k logs n =
       ext w (wandb_log
                {[ "epoch_train_loss" := VFloat loss;
                   "epoch_valid_loss" :=
                     from_option VFloat VNone (logs !! "val_loss");
                   "epoch_valid_accuracy" :=
                     from_option VFloat VNone (logs !! "val_acc") ]}) n) /\
  (logs !! "loss" = None ->
     wandb_on_epoch_end w k logs n = ([], inl (KeyError "loss"))) /\
  (forall loss acc, logs !! "loss" = Some loss -> logs !! "acc" = Some acc ->
     wandb_on_batch_end w k logs n =
       ext w (wandb_log {[ "batch_train_loss" := VFloat loss;
                           "batch_train_accuracy" := VFloat acc ]}) n) /\
  (logs !! "loss" = None ->
     wandb_on_batch_end w k logs n = ([], inl (KeyError "loss"))) /\
  (is_Some (logs !! "loss") -> logs !! "acc" = None ->
     wandb_on_batch_end w k logs n = ([], inl (KeyError "acc"))).
Proof.
  unfold wandb_on_epoch_end, wandb_on_batch_end, getitem, dict_get.
  repeat split.
  - intros loss ->. rewrite bind_ret_l.
    by destruct (logs !! "val_loss"), (logs !! "val_acc").
  - by intros ->.
  - intros loss acc -> ->. by rewrite !bind_ret_l.
  - by intros ->.
  - intros [loss ->] ->. by rewrite bind_ret_l.
Qed.

(** *** Projections of a run *)

Lemma emits_ret {X A} (f : @entry scalar -> option X) (a : A) :
  emits f (@ret scalar A a) [].
Proof. by intros n. Qed.

Lemma emits_skip {X} (f : @entry scalar -> option X) w c :
  (forall o, f (c, o) = None) -> emits f (ext w c) [].
Proof.
  intros Hf n. unfold ext. destruct (raises w n c); simpl; by rewrite Hf.
Qed.

Lemma emits_ext {X} (f : @entry scalar -> option X) w c x :
  f (c, Returned) = Some x ->
  (forall e, f (c, Raised e) = Some x \/ f (c, Raised e) = None) ->
  emits f (ext w c) [x].
Proof.
  intros Hf Hraised n. unfold ext. destruct (raises w n c) as [e|]; simpl.
  - split; [|done]. destruct (Hraised e) as [-> | ->]; [done|apply prefix_nil].
  - by rewrite Hf.
Qed.

Lemma emits_bind {X A B} (f : @entry scalar -> option X)
    (m : M A) (k : A -> M B) l1 l2 :
  emits f m l1 -> (forall a, emits f (k a) l2) -> emits f (bind m k) (l1 ++ l2).
Proof.
  intros Hm Hk n. unfold bind. destruct (Hm n) as [Hp He].
  destruct (m n) as [t [e|a]]; simpl in *.
  - split; [by apply prefix_app_r|done].
  - specialize (He a eq_refl).
    destruct (Hk a (n + length t)%nat) as [Hp' He'].
    destruct (k a _) as [t' r]; simpl in *. rewrite omap_app, He.
    split; [by apply prefix_app|]. intros b ->. by rewrite (He' b).
Qed.

Lemma emits_bind_nil {X A B} (f : @entry scalar -> option X)
    (m : M A) (k : A -> M B) :
  emits f m [] -> (forall a, emits f (k a) []) -> emits f (bind m k) [].
Proof. apply (emits_bind f m k [] []). Qed.

Lemma emits_index {X} (f : @entry scalar -> option X) (l : list scalar) i :
  emits f (index l i) [].
Proof. intros n. unfold index. by destruct (l !! i). Qed.

Lemma emits_getitem {X} (f : @entry scalar -> option X) logs key :
  emits f (getitem logs key) [].
Proof. intros n. unfold getitem. by destruct (logs !! key). Qed.

Lemma emits_for_each {X A} (f : @entry scalar -> option X)
    (body : nat -> A -> M unit) i (l : list A) :
  (forall j x, emits f (body j x) []) -> emits f (for_each body i l) [].
Proof.
  intros Hbody. revert i. induction l as [|x l IH]; intros i.
  - apply emits_ret.
  - simpl. apply emits_bind_nil; [apply Hbody|]. intros _. apply IH.
Qed.

Lemma emits_as {X A} (f : @entry scalar -> option X) (m : M A) l l' :
  emits f m l -> l = l' -> emits f m l'.
Proof. by intros ? <-. Qed.

Lemma omap_calls_of (p : @call scalar -> bool) t :
  omap (calls_of p) t = select p t.*1.
Proof.
  induction t as [|[c o] t IH]; [done|].
  change (omap (calls_of p) ((c, o) :: t))
    with (from_option (fun x => x :: omap (calls_of p) t) (omap (calls_of p) t)
                      (calls_of p (c, o))).
  rewrite IH. unfold calls_of, select. simpl. by destruct (p c).
Qed.

Ltac walk_emits :=
  repeat first
    [ eapply emits_bind; [|intros ?]
    | apply emits_bind_nil; [|intros ?]
    | apply emits_ret
    | apply emits_index
    | apply emits_getitem
    | apply emits_for_each; intros ? ?
    | apply emits_skip; intros ?; reflexivity
    | eapply emits_ext;
        [reflexivity|intros ?; first [left; reflexivity|right; reflexivity]]
    | match goal with
      | |- emits _ (on_batch_end _ ?cb _ _) _ =>
          destruct cb; simpl; unfold wandb_on_batch_end
      | |- emits _ (on_epoch_end _ ?cb _ _) _ =>
          destruct cb; simpl; unfold wandb_on_epoch_end
      end ].

Lemma training_steps st dm w :
  emits (calls_of is_step) (training st dm w) (pipeline st dm w).
Proof.
  unfold training, fit, run_epoch, pipeline.
  destruct (REDUCE_DATASET st), (TEST_SET st).
  all: eapply emits_as; [walk_emits|reflexivity].
Qed.

(** X1.  Control flow is linear and single-pass in every run, complete or
    not: the calls of a run other than its reports to the console and to
    the tracker are an initial segment of [pipeline], so no step is
    repeated, skipped or taken out of order; a run that reaches its end
    took every step. *)
Theorem pipeline_order st dm w :
  select is_step (execute st dm w).1.*1 `prefix_of` pipeline st dm w /\
  ((execute st dm w).2 = inr tt ->
   select is_step (execute st dm w).1.*1 = pipeline st dm w).
Proof.
  rewrite <- omap_calls_of. destruct (training_steps st dm w 0%nat) as [Hp He].
  split; [exact Hp|apply He].
Qed.

(** No call of a piece of the script is one the predicate at hand picks. *)
Ltac never :=
  unfold fit, run_epoch; walk_always; try reflexivity;
  unfold wandb_on_batch_end, wandb_on_epoch_end; walk_always; reflexivity.

Lemma training_writes st dm w : emits written (training st dm w) (saved st).
Proof.
  unfold training, fit, run_epoch, saved.
  destruct (REDUCE_DATASET st), (TEST_SET st).
  all: eapply emits_as; [walk_emits|reflexivity].
Qed.

(** X2.  However a run ends, the paths of the writes that returned are
    an initial segment of these four, in this order: [SAVE_DIR] followed
    by [history.json], by the name of the weights file, by
    [config_train.json], and [SAVE_DIR] itself for the tokenizer.  A later
    artifact is never written without the earlier ones, and a run that
    reaches its end has written all four. *)
Theorem artifacts_in_order st dm w :
  let paths :=
    [ SAVE_DIR st +:+ "history.json";
      SAVE_DIR st +:+ "big_model_weights_coco.weights.h5";
      SAVE_DIR st +:+ "config_train.json";
      SAVE_DIR st ] in
  artifacts (execute st dm w).1 `prefix_of` paths /\
  ((execute st dm w).2 = inr tt -> artifacts (execute st dm w).1 = paths).
Proof.
  intros paths. destruct (training_writes st dm w 0%nat) as [Hp He].
  split; [exact Hp|apply He].
Qed.

(** *** Evaluations and their reports *)

Lemma training_evaluates st dm w :
  emits evaluation_step_of (training st dm w)
    ([ Evaluates (train_dataset st dm w); Evaluates (valid_dataset st dm w);
       LogsSummary ] ++
     (if TEST_SET st then [Evaluates (test_dataset st dm w); LogsTest] else []) ++
     [ Prints "Train Loss = %.4f - Train Accuracy = %.4f";
       Prints "Valid Loss = %.4f - Valid Accuracy = %.4f" ] ++
     (if TEST_SET st then [Prints "Test Loss = %.4f - Test Accuracy = %.4f"]
      else [])).
Proof.
  unfold training, fit, run_epoch.
  destruct (REDUCE_DATASET st), (TEST_SET st).
  all: eapply emits_as; [walk_emits|reflexivity].
Qed.

(** X12.  In every run, complete or not, the evaluations of lines 148-163
    and the reports of their results come in one order: the model is
    evaluated on the training dataset, then on the validation dataset,
    then the summary goes to the tracker; with [TEST_SET] on the model is
    then evaluated on the test dataset and the test metrics go to the
    tracker; only then the lines of metrics are printed, training,
    validation and, with [TEST_SET] on, test.  None of this is repeated,
    skipped or done out of order, and a run that reaches its end did all
    of it. *)
Theorem evaluation_in_order st dm w :
  let fitted :=
    adapt {| max_tokens := MAX_VOCAB_SIZE st; output_mode := "int";
             output_sequence_length := SEQ_LENGTH st;
             standardize := custom_standardization dm; ngrams := 1;
             learned := [] |}
          (json_corpus w (text_data_json_path st)) in
  let reduced :=
    reduce_dataset_dim dm (json_samples w (train_data_json_path st))
                          (json_samples w (valid_data_json_path st)) in
  let train :=
    if REDUCE_DATASET st then reduced.1
    else json_samples w (train_data_json_path st) in
  let valid :=
    if REDUCE_DATASET st then reduced.2
    else json_samples w (valid_data_json_path st) in
  let parts := valid_test_split dm valid in
  let dataset (part : samples) (augment : bool) :=
    make_dataset (keys part) (values part) augment fitted in
  let steps :=
    [ Evaluates (dataset train (TRAIN_SET_AUG st));
      Evaluates (dataset parts.1 (VALID_SET_AUG st));
      LogsSummary ] ++
    (if TEST_SET st then [Evaluates (dataset parts.2 false); LogsTest] else []) ++
    [ Prints "Train Loss = %.4f - Train Accuracy = %.4f";
      Prints "Valid Loss = %.4f - Valid Accuracy = %.4f" ] ++
    (if TEST_SET st then [Prints "Test Loss = %.4f - Test Accuracy = %.4f"]
     else []) in
  omap evaluation_step_of (execute st dm w).1 `prefix_of` steps /\
  ((execute st dm w).2 = inr tt ->
   omap evaluation_step_of (execute st dm w).1 = steps).
Proof.
  intros fitted reduced train valid parts dataset steps.
  destruct (training_evaluates st dm w 0%nat) as [Hp He].
  split; [exact Hp|apply He].
Qed.

(** *** The end of the tracker's run *)

Lemma training_closes st dm w :
  emits written_or_finished (training st dm w) ((Some <$> saved st) ++ [None]).
Proof.
  unfold training, fit, run_epoch, saved.
  destruct (REDUCE_DATASET st), (TEST_SET st).
  all: eapply emits_as; [walk_emits|reflexivity].
Qed.

Lemma written_finished t :
  omap written t = omap (fun x => x) (omap written_or_finished t).
Proof.
  induction t as [|[c o] t IH]; [done|].
  change ((c, o) :: t) with ([(c, o)] ++ t). rewrite !omap_app, IH. f_equal.
  destruct c; try reflexivity; by destruct o.
Qed.

Lemma prefix_snoc_elem {X} (l k : list X) x :
  l `prefix_of` k ++ [x] -> x ∈ l -> x ∉ k -> l = k ++ [x].
Proof.
  intros [l' Hl] Hx Hk. destruct l' as [|y l' _] using rev_ind.
  { by rewrite (right_id_L [] (++)) in Hl. }
  rewrite (assoc_L (++)) in Hl. apply app_inj_tail in Hl as [-> _].
  destruct Hk. apply elem_of_app. by left.
Qed.

Lemma ends_at_ext (p : @call scalar -> bool) w c : ends_at p (ext w c).
Proof.
  intros n i c' o. unfold ext.
  destruct (raises w n c); simpl; intros Hi%lookup_lt_Some _; simpl in Hi;
    f_equal; lia.
Qed.

Lemma ends_at_bind (p : @call scalar -> bool) {A B} (m : M A) (k : A -> M B) :
  always (fun c => p c = false) m -> (forall a, ends_at p (k a)) ->
  ends_at p (bind m k).
Proof.
  intros Hm Hk n i c o. unfold bind. specialize (Hm n).
  destruct (m n) as [t1 [e|a]]; simpl in *.
  - intros Hi Hc. rewrite Forall_forall in Hm.
    apply list_elem_of_lookup_2 in Hi. specialize (Hm _ Hi). simpl in Hm.
    congruence.
  - specialize (Hk a (n + length t1)%nat). destruct (k a _) as [t2 r].
    simpl in *. intros [Hi|[Hlen Hi]]%lookup_app_Some Hc.
    + rewrite Forall_forall in Hm.
      apply list_elem_of_lookup_2 in Hi. specialize (Hm _ Hi). simpl in Hm.
      congruence.
    + specialize (Hk _ _ _ Hi Hc). rewrite length_app. unfold entry in *. lia.
Qed.

Lemma training_ends_at_finish st dm w : ends_at is_finish (training st dm w).
Proof.
  unfold training.
  repeat (apply ends_at_bind; [never|intros _]).
  apply ends_at_ext.
Qed.

(** X3.  The tracker's run is ended only when everything is saved: in
    every run in which [run.finish()] is called, it is the last call and
    all four artifacts have been written before it.  A run that fails
    earlier never ends the tracker's run. *)
Theorem run_finish_closes st dm w i o :
  (execute st dm w).1 !! i = Some (run_finish, o) ->
  length (execute st dm w).1 = S i /\
  artifacts (execute st dm w).1 = saved st.
Proof.
  intros Hi. split; [exact (training_ends_at_finish st dm w 0%nat i run_finish o Hi eq_refl)|].
  destruct (training_closes st dm w 0%nat) as [Hp _].
  fold (execute st dm w) in Hp. apply prefix_snoc_elem in Hp.
  - change (artifacts (execute st dm w).1) with (omap written (execute st dm w).1).
    by rewrite written_finished, Hp.
  - apply list_elem_of_omap. exists (run_finish, o).
    split; [by apply list_elem_of_lookup_2 in Hi|done].
  - by intros (p & ? & _)%list_elem_of_fmap.
Qed.

(** *** What follows the training loop *)

Lemma fit_inr w m train epochs valid n t :
  fit w m train epochs valid [early_stopping; wandb_callback] n = (t, inr tt) ->
  Forall epoch_complete (take (Z.to_nat epochs) (fit_epochs w)).
Proof.
  unfold fit.
  by intros (t1 & [] & t2 & _ & [_ ?]%epochs_inr & _)%bind_inr.
Qed.

Lemma only_when_bind (late : @call scalar -> bool) (G : Prop) {A B}
    (m : M A) (k : A -> M B) :
  always (fun c => late c = false) m -> (forall a, only_when late G (k a)) ->
  only_when late G (bind m k).
Proof.
  intros Hm Hk n c. unfold bind. specialize (Hm n).
  rewrite Forall_forall in Hm.
  assert (Hearly : c ∈ (m n).1.*1 -> late c = true -> G).
  { intros ([c' o] & -> & Hin)%list_elem_of_fmap Hc.
    specialize (Hm _ Hin). simpl in *. congruence. }
  destruct (m n) as [t1 [e|a]]; simpl in *; [done|].
  specialize (Hk a (n + length t1)%nat c). destruct (k a _) as [t2 r].
  simpl in *. rewrite fmap_app. intros [?|?]%elem_of_app; eauto.
Qed.

Lemma only_when_gate (late : @call scalar -> bool) (G : Prop) {A B}
    (m : M A) (k : A -> M B) :
  always (fun c => late c = false) m ->
  (forall n t a, m n = (t, inr a) -> G) ->
  only_when late G (bind m k).
Proof.
  intros Hm HG n c. unfold bind. specialize (Hm n). specialize (HG n).
  rewrite Forall_forall in Hm.
  destruct (m n) as [t1 [e|a]]; simpl in *; [|by eauto].
  intros ([c' o] & -> & Hin)%list_elem_of_fmap Hc.
  specialize (Hm _ Hin). simpl in *. congruence.
Qed.

Lemma training_after_fit st dm w :
  only_when after_training (Forall epoch_complete (epochs_run st w))
            (training st dm w).
Proof.
  unfold training.
  repeat lazymatch goal with
         | |- only_when _ _ (bind (fit _ _ _ _ _ _) _) =>
             apply only_when_gate; [never|intros ? ? [] ?; by eapply fit_inr]
         | |- only_when _ _ (bind _ _) =>
             apply only_when_bind; [never|intros _]
         end.
Qed.

(** X4.  A failure of the logging callback costs the whole run: if one of
    the batches or epochs of the training loop lacks a key the callback
    indexes, the run does not reach its end, and it makes no call of what
    follows the loop: no evaluation, no write, no [run.finish()]. *)
Theorem callback_failure_aborts st dm w :
  ~ Forall epoch_complete (epochs_run st w) ->
  (execute st dm w).2 <> inr tt /\
  Forall (fun c => after_training c = false) (execute st dm w).1.*1.
Proof.
  intros Hlogs. split.
  - intros Hrun. apply outcome_returned in Hrun.
    by apply execute_completed in Hrun as (? & ? & ? & ? & ? & _ & _ & ?).
  - apply Forall_forall. intros c Hc.
    destruct (after_training c) eqn:Hlate; [|done].
    destruct Hlogs. exact (training_after_fit st dm w 0%nat c Hc Hlate).
Qed.

(** *** What the console and the tracker get *)



End Theory.

(** ** The theorems at the small run *)

(** The weights cannot be written: the run ends there with the framework's
    exception, and [history.json] is the only artifact. *)
Lemma exceptions_propagate_witness :
  let run := execute (Demo.settings false true 4) Demo.dataset_module
                     (Demo.world Demo.disk_full [7; 8]) in
  run.2 = inl (FrameworkError "disk full") /\
  length run.1 = 48%nat /\
  artifacts run.1 = ["save_train_dir/history.json"].
Proof.
  set (st := Demo.settings false true 4).
  set (w := Demo.world Demo.disk_full [7; 8]).
  set (c := @model_save_weights Z (caption_model st Demo.dataset_module w)
              ("save_train_dir/" +:+ weights_file)).
  intros run.
  assert (Hrun : execute st Demo.dataset_module w = (run.1, run.2))
    by apply surjective_pairing.
  assert (Hcall : run.1 !! 47%nat = Some (c, Raised (FrameworkError "disk full")))
    by (vm_compute; reflexivity).
  pose proof (exceptions_propagate st Demo.dataset_module w _ _ _ _ _
                (FrameworkError "disk full") Hrun Hcall eq_refl)
    as (Hr & _ & Hlen & _).
  split; [exact Hr|]. split; [exact Hlen|]. vm_compute; reflexivity.
Defined.

Lemma adapt_once_before_datasets_witness :
  let st := Demo.settings false true 100 in
  let w := Demo.world Demo.nothing_raises [7; 8] in
  let t := (execute st Demo.dataset_module w).1 in
  select is_adapt t.*1 =
    [tokenizer_adapt (tokenizer_unfitted st Demo.dataset_module)
                     ["a cat"; "a dog"]] /\
  vocab_size (decoder st Demo.dataset_module w) = 5.
Proof.
  intros st w t.
  assert (Hrun : execute st Demo.dataset_module w = (t, inr tt))
    by (apply outcome_returned; vm_compute; reflexivity).
  pose proof (adapt_once_before_datasets st Demo.dataset_module w t Hrun)
    as (Honce & _ & _ & Hsize).
  split; [exact Honce|]. rewrite Hsize. vm_compute; reflexivity.
Defined.

Lemma test_metrics_follow_flag_witness :
  let on := (execute (Demo.settings false true 100) Demo.dataset_module
                     Demo.graded).1 in
  let off := (execute (Demo.settings false false 100) Demo.dataset_module
                      Demo.graded).1 in
  let fitted :=
    adapt {| max_tokens := 100; output_mode := "int";
             output_sequence_length := 25; standardize := fun s => s;
             ngrams := 1; learned := [] |}
          ["a cat"; "a dog"] in
  let test_set := make_dataset ["img2.jpg"] [["a dog"]] false fitted in
  let block :=
    {| enc_embed_dim := 512; enc_dense_dim := 1024; enc_num_heads := 6 |} in
  let model :=
    {| m_cnn_model := cnn_model; m_encoder := block; m_encoder2 := block;
       m_decoder := {| dec_embed_dim := 512; dec_ff_dim := 1024;
                       dec_num_heads := 6; vocab_size := 5 |} |} in
  (exists before between after,
     on.*1 = before ++ call_make_dataset test_set ::
             between ++ model_evaluate model test_set 64 ::
             wandb_log {[ "Test Loss" := VFloat 7; "Test Accuracy" := VFloat 8 ]} ::
             after /\
     print [Fmt "Test Loss = %.4f - Test Accuracy = %.4f" [VFloat 7; VFloat 8]]
       ∈ after) /\
  Forall (fun c => reports test_metric_keys c = false) off.*1.
Proof.
  intros on off fitted test_set block model.
  assert (Hrun : execute (Demo.settings false true 100) Demo.dataset_module
                         Demo.graded = (on, inr tt))
    by (apply outcome_returned; vm_compute; reflexivity).
  assert (Hrun' : execute (Demo.settings false false 100) Demo.dataset_module
                          Demo.graded = (off, inr tt))
    by (apply outcome_returned; vm_compute; reflexivity).
  pose proof (test_metrics_follow_flag _ _ _ _ _ Hrun) as [_ Hon].
  pose proof (test_metrics_follow_flag _ _ _ _ _ Hrun') as [Hoff _].
  destruct (Hon eq_refl eq_refl)
    as (sl & sa & before & between & after & Hsl & Hsa & Hcalls & Hprint).
  vm_compute in Hsl, Hsa. injection Hsl as <-. injection Hsa as <-.
  split; [|exact (Hoff eq_refl)].
  exists before, between, after. split; [exact Hcalls|exact Hprint].
Defined.

(** C3, as stated, fails when the corpus has more distinct tokens than
    [MAX_VOCAB_SIZE] leaves room for: with [MAX_VOCAB_SIZE = 4] and the
    captions "a cat" and "a dog" the run writes VOCAB_SIZE 4, while the
    distinct tokens (a, cat, dog) and the two reserved ones make 5. *)
Lemma vocab_size_capped_counterexample :
  let st := Demo.settings false true 4 in
  let w := Demo.world Demo.nothing_raises [7; 8] in
  let run := execute st Demo.dataset_module w in
  let counted :=
    len (unique_tokens (custom_standardization Demo.dataset_module)
                       (json_corpus w (text_data_json_path st)))
    + len reserved_tokens in
  run.2 = inr tt /\
  select is_json_dump run.1.*1 =
    [ json_dump (fit_history w) "save_train_dir/history.json";
      json_dump (config_train st Demo.dataset_module w)
                "save_train_dir/config_train.json" ] /\
  config_train st Demo.dataset_module w !! "VOCAB_SIZE" = Some (VInt 4) /\
  counted = 5 /\
  config_train st Demo.dataset_module w !! "VOCAB_SIZE" <> Some (VInt counted).
Proof.
  intros st w run counted.
  repeat split; try (vm_compute; reflexivity). vm_compute. discriminate.
Qed.

Lemma config_vocab_size_witness :
  let st := Demo.settings false true 100 in
  let w := Demo.world Demo.nothing_raises [7; 8] in
  let t := (execute st Demo.dataset_module w).1 in
  len (get_vocabulary (tokenizer st Demo.dataset_module w)) = Z.min 100 (3 + 2) /\
  select is_json_dump t.*1 =
    [ json_dump (fit_history w) "save_train_dir/history.json";
      json_dump
        {[ "IMAGE_SIZE" := VList [VInt 299; VInt 299];
           "MAX_VOCAB_SIZE" := VInt 100;
           "SEQ_LENGTH" := VInt 25;
           "EMBED_DIM" := VInt 512;
           "NUM_HEADS" := VInt 6;
           "FF_DIM" := VInt 1024;
           "BATCH_SIZE" := VInt 64;
           "EPOCHS" := VInt 10;
           "VOCAB_SIZE" := VInt 5 ]}
        "save_train_dir/config_train.json" ].
Proof.
  intros st w t.
  assert (Hrun : execute st Demo.dataset_module w = (t, inr tt))
    by (apply outcome_returned; vm_compute; reflexivity).
  pose proof (config_vocab_size st Demo.dataset_module w _ Hrun)
    as (Hcap & Hdumps & _).
  split.
  - etrans; [apply Hcap; vm_compute; discriminate|]. vm_compute; reflexivity.
  - etrans; [exact Hdumps|]. vm_compute; reflexivity.
Defined.

(** C4, as stated, fails for the training accuracy of an epoch: at the
    end of an epoch with loss 1, accuracy 2, validation loss 3 and
    validation accuracy 4 the callback reports 1, 3 and 4; nothing it
    sends carries the 2. *)
Lemma epoch_accuracy_counterexample :
  exists d,
    wandb_on_epoch_end (Demo.world Demo.nothing_raises [7; 8])
                       0%nat Demo.logs4 0%nat
      = ([returned (wandb_log d)], inr tt) /\
    Demo.logs4 !! "acc" = Some 2 /\
    forwards d 1 /\ forwards d 3 /\ forwards d 4 /\
    ~ forwards d 2.
Proof.
  eexists. split; [reflexivity|]. split; [by vm_compute|].
  split; [by exists "epoch_train_loss"|].
  split; [by exists "epoch_valid_loss"|].
  split; [by exists "epoch_valid_accuracy"|].
  intros [k Hk].
  destruct (decide (k = "epoch_train_loss")) as [->|];
    [by vm_compute in Hk|].
  destruct (decide (k = "epoch_valid_loss")) as [->|];
    [by vm_compute in Hk|].
  destruct (decide (k = "epoch_valid_accuracy")) as [->|];
    [by vm_compute in Hk|].
  by simplify_map_eq.
Qed.

Lemma callback_forwards_witness :
  let st := Demo.settings false true 100 in
  let w := Demo.world Demo.nothing_raises [7; 8] in
  let t := (execute st Demo.dataset_module w).1 in
  select (reports callback_keys) t.*1 =
    [ batch_report 9 1; batch_report 5 2; epoch_report 1 (Some 3) (Some 4) ].
Proof.
  intros st w t.
  assert (Hrun : execute st Demo.dataset_module w = (t, inr tt))
    by (apply outcome_returned; vm_compute; reflexivity).
  pose proof (callback_forwards st Demo.dataset_module w t Hrun) as [Hcalls _].
  rewrite Hcalls. vm_compute; reflexivity.
Defined.

Lemma persistence_order_witness :
  let st := Demo.settings false true 100 in
  let w := Demo.world Demo.nothing_raises [7; 8] in
  let t := (execute st Demo.dataset_module w).1 in
  let fitted :=
    adapt {| max_tokens := 100; output_mode := "int";
             output_sequence_length := 25; standardize := fun s => s;
             ngrams := 1; learned := [] |}
          ["a cat"; "a dog"] in
  let block :=
    {| enc_embed_dim := 512; enc_dense_dim := 1024; enc_num_heads := 6 |} in
  let model :=
    {| m_cnn_model := cnn_model; m_encoder := block; m_encoder2 := block;
       m_decoder := {| dec_embed_dim := 512; dec_ff_dim := 1024;
                       dec_num_heads := 6; vocab_size := 5 |} |} in
  (exists before,
     t.*1 = before ++
       [ py_open "save_train_dir/history.json" "w";
         json_dump (fit_history w) "save_train_dir/history.json";
         model_save_weights model
           "save_train_dir/big_model_weights_coco.weights.h5";
         run_save "save_train_dir/big_model_weights_coco.weights.h5";
         py_open "save_train_dir/config_train.json" "w";
         json_dump
           {[ "IMAGE_SIZE" := VList [VInt 299; VInt 299];
              "MAX_VOCAB_SIZE" := VInt 100;
              "SEQ_LENGTH" := VInt 25;
              "EMBED_DIM" := VInt 512;
              "NUM_HEADS" := VInt 6;
              "FF_DIM" := VInt 1024;
              "BATCH_SIZE" := VInt 64;
              "EPOCHS" := VInt 10;
              "VOCAB_SIZE" := VInt 5 ]}
           "save_train_dir/config_train.json";
         save_tokenizer fitted "save_train_dir/";
         run_finish ] /\
     select is_persistence before = []) /\
  Forall (fun path => inside "save_train_dir/" path = true)
         [ "save_train_dir/history.json";
           "save_train_dir/big_model_weights_coco.weights.h5";
           "save_train_dir/config_train.json" ].
Proof.
  intros st w t fitted block model.
  assert (Hrun : execute st Demo.dataset_module w = (t, inr tt))
    by (apply outcome_returned; vm_compute; reflexivity).
  pose proof (persistence_order st Demo.dataset_module w t Hrun)
    as ((before & Hcalls & Hnone & _) & Hinside).
  split.
  - exists before. split; [exact Hcalls|exact Hnone].
  - exact (Hinside eq_refl).
Defined.

(** C5, as stated, fails for a [SAVE_DIR] spelled without its separator
    at the end: with [SAVE_DIR = "save_train_dir"] a run that reaches its
    end writes [save_train_dirhistory.json] and its two fellows beside
    the directory, not into it. *)
Lemma save_dir_counterexample :
  let st := Demo.settings_in "save_train_dir" in
  let w := Demo.world Demo.nothing_raises [7; 8] in
  let run := execute st Demo.dataset_module w in
  run.2 = inr tt /\
  artifacts run.1 =
    [ "save_train_dirhistory.json";
      "save_train_dirbig_model_weights_coco.weights.h5";
      "save_train_dirconfig_train.json";
      "save_train_dir" ] /\
  inside "save_train_dir" "save_train_dirhistory.json" = false /\
  inside "save_train_dir" "save_train_dirbig_model_weights_coco.weights.h5" = false /\
  inside "save_train_dir" "save_train_dirconfig_train.json" = false.
Proof. repeat split; vm_compute; reflexivity. Qed.

Lemma early_stopping_installed_witness :
  let st := Demo.settings false true 100 in
  let w := Demo.world Demo.nothing_raises [7; 8] in
  let t := (execute st Demo.dataset_module w).1 in
  select is_fit_or_early_stopping t.*1 =
    [ new_EarlyStopping (EarlyStopping "val_loss" 3 true);
      model_fit (caption_model st Demo.dataset_module w)
                (train_dataset st Demo.dataset_module w) 10
                (valid_dataset st Demo.dataset_module w)
                [EarlyStopping "val_loss" 3 true; wandb_callback] ].
Proof.
  intros st w t.
  apply (early_stopping_installed st Demo.dataset_module w t).
  apply outcome_returned; vm_compute; reflexivity.
Defined.

(** Two runs on the same mappings, with the reduction on, that differ in
    what [evaluate] returns: both report one training and one validation
    sample. *)
Lemma sample_counts_deterministic_witness :
  let st := Demo.settings true false 100 in
  let t1 := (execute st Demo.dataset_module
                      (Demo.world Demo.nothing_raises [7; 8])).1 in
  let t2 := (execute st Demo.dataset_module
                      (Demo.world Demo.nothing_raises [1; 2; 3])).1 in
  select is_count_report t1.*1 = select is_count_report t2.*1 /\
  select is_count_report t1.*1 =
    [ print [Lit "Number of training samples: "; Val (VInt 1)];
      print [Lit "Number of validation samples: "; Val (VInt 1)];
      wandb_log {[ "Number of training samples" := VInt 1;
                   "Number of validation samples" := VInt 1 ]} ].
Proof.
  intros st t1 t2.
  assert (Hrun1 : execute st Demo.dataset_module
                     (Demo.world Demo.nothing_raises [7; 8]) = (t1, inr tt))
    by (apply outcome_returned; vm_compute; reflexivity).
  assert (Hrun2 : execute st Demo.dataset_module
                     (Demo.world Demo.nothing_raises [1; 2; 3]) = (t2, inr tt))
    by (apply outcome_returned; vm_compute; reflexivity).
  pose proof (sample_counts_deterministic st st Demo.dataset_module
                (Demo.world Demo.nothing_raises [7; 8])
                (Demo.world Demo.nothing_raises [1; 2; 3]) t1 t2
                eq_refl eq_refl eq_refl Hrun1 Hrun2) as [Hsame Hcounts].
  split; [exact Hsame|]. rewrite Hcounts. vm_compute; reflexivity.
Defined.

(** With [TEST_SET] off the second image, which the split sets aside, is
    in no dataset. *)
Lemma split_is_unconditional_witness :
  let st := Demo.settings false false 100 in
  let w := Demo.world Demo.nothing_raises [7; 8] in
  let t := (execute st Demo.dataset_module w).1 in
  select is_split t.*1 = [call_valid_test_split Demo.images] /\
  select is_make_dataset t.*1 =
    [ call_make_dataset (train_dataset st Demo.dataset_module w);
      call_make_dataset
        (make_dataset ["img1.jpg"] [["a cat"]] false
                      (tokenizer st Demo.dataset_module w)) ].
Proof.
  intros st w t.
  assert (Hrun : execute st Demo.dataset_module w = (t, inr tt))
    by (apply outcome_returned; vm_compute; reflexivity).
  pose proof (split_is_unconditional st Demo.dataset_module w t Hrun)
    as (Hsplit & _ & Hdatasets & _).
  split; [exact Hsplit|exact Hdatasets].
Defined.

(** C10, as stated, fails for an epoch whose logs lack ['loss']: no
    validation metric is in these logs, and the per-epoch callback
    raises. *)
Lemma epoch_callback_raises_counterexample :
  wandb_on_epoch_end (Demo.world Demo.nothing_raises [7; 8])
                     0%nat {[ "acc" := 2 ]} 0%nat
  = ([], inl (KeyError "loss")).
Proof. reflexivity. Qed.


(** ** The properties of every run, at the small run *)

(** The run that reaches its end makes 53 calls; [run.finish()] is the
    last. *)
Lemma run_finish_closes_witness :
  let run := execute (Demo.settings false true 100) Demo.dataset_module
                     (Demo.world Demo.nothing_raises [7; 8]) in
  length run.1 = 53%nat /\
  artifacts run.1 =
    [ "save_train_dir/history.json";
      "save_train_dir/big_model_weights_coco.weights.h5";
      "save_train_dir/config_train.json";
      "save_train_dir/" ].
Proof.
  intros run.
  assert (Hi : run.1 !! 52%nat = Some (@run_finish Z, Returned))
    by (vm_compute; reflexivity).
  destruct (run_finish_closes (Demo.settings false true 100)
              Demo.dataset_module (Demo.world Demo.nothing_raises [7; 8])
              52%nat Returned Hi) as [Hlen Hart].
  split; [exact Hlen|]. unfold run. rewrite Hart. reflexivity.
Defined.

(** The second batch has no accuracy: the callback raises, and the run
    neither evaluates nor writes. *)
Lemma callback_failure_aborts_witness :
  let run := execute (Demo.settings false true 100) Demo.dataset_module
                     Demo.no_accuracy in
  run.2 = inl (KeyError "acc") /\
  Forall (fun c => after_training c = false) run.1.*1.
Proof.
  intros run.
  assert (Hlogs : ~ Forall epoch_complete
                      (epochs_run (Demo.settings false true 100)
                                  Demo.no_accuracy)).
  { intros Hall. apply Forall_inv in Hall as [Hb _].
    apply Forall_inv_tail, Forall_inv in Hb as [c Hc]. by vm_compute in Hc. }
  destruct (callback_failure_aborts (Demo.settings false true 100)
              Demo.dataset_module Demo.no_accuracy Hlogs) as [_ Hcalls].
  split; [vm_compute; reflexivity|exact Hcalls].
Defined.


